(** * PCL dump: capture, job-boundary inference and render dispatch

    A shallow embedding of [pcl_dump.py] (the terminal variant) and of the
    capture core of [scope_dump_pro.py] (the GUI variant).  The threads of
    the program share a buffer file on disk and the [serialPause] event;
    every function below is a state transformer over a [World] that holds
    exactly that shared state, and returns the trace of the effects the
    code performs (console lines, sleeps, child processes, serial traffic).
    [gui.status_*] labels of the GUI variant are not recorded, except the
    last-capture stamp.

    Console formatting ([stty size], padding, the animated dots) is left
    out: [printConsole] records the text it is given. *)

From Stdlib Require Import List String Ascii ZArith Lia Bool Arith.
From Stdlib Require Import DecimalString Decimal.
Import ListNotations.
Local Open Scope string_scope.

(** ** Configuration: the module-level constants *)

Record Config : Type := {
  SERIAL_PORT : string;
  SERIAL_RATE : Z;
  SERIAL_IGNORE : bool;
  BUFFER_FILE : string;
  KEEP_BUFFER : bool;
  TIMEOUT_S : Z;                 (* inactivity window, in seconds *)
  PCL_BINARY : string;
  PCL_ARGS : string;
  FILE_DIR : string;
  FILE_BASENAME : string;
  FILE_VIEWER : string;
  CONV_FORMAT : string;
  PNG_PHOSPHOR : bool;
  PNG_PHOSPHOR_CMD : string;
  PNG_PHOSPHOR_ARGS : string;
  PREVIEW : bool;
  PREVIEW_NATIVE : bool;         (* GUI variant only *)
  COMMANDS_STARTUP : list string;
  COMMANDS_DELAY : Z             (* in milliseconds: 1.2 s is 1200 *)
}.

Definition CR : string := String (ascii_of_nat 13) EmptyString.
Definition LF : string := String (ascii_of_nat 10) EmptyString.
Definition CRLF : string := CR ++ LF.
Definition DQ : string := String (ascii_of_nat 34) EmptyString.

(** The values written at the top of [pcl_dump.py]; [home] stands for
    [os.environ['HOME']]. *)
Definition default_config (home : string) : Config := {|
  SERIAL_PORT := "/dev/ttyUSB0";
  SERIAL_RATE := 19200;
  SERIAL_IGNORE := false;
  BUFFER_FILE := "/tmp/scope.dump";
  KEEP_BUFFER := false;
  TIMEOUT_S := 2;
  PCL_BINARY := "/usr/local/bin/gpcl6";
  PCL_ARGS := "-sDEVICE=pdfwrite -o ";
  FILE_DIR := home;
  FILE_BASENAME := "scope_output_";
  FILE_VIEWER := "firefox";
  CONV_FORMAT := "pdf";
  PNG_PHOSPHOR := true;
  PNG_PHOSPHOR_CMD := "/usr/bin/convert";
  PNG_PHOSPHOR_ARGS :=
    "-alpha off -fill " ++ DQ ++ "#00EE00" ++ DQ
      ++ " -draw 'color 0,0 replace' +level-colors green,black -auto-level";
  PREVIEW := true;
  PREVIEW_NATIVE := false;
  COMMANDS_STARTUP :=
    ["++srqauto 1" ++ CRLF; "++read" ++ CRLF; "++read" ++ CRLF];
  COMMANDS_DELAY := 1200
|}.

Definition with_keep (c : Config) (k : bool) : Config := {|
  SERIAL_PORT := SERIAL_PORT c; SERIAL_RATE := SERIAL_RATE c;
  SERIAL_IGNORE := SERIAL_IGNORE c; BUFFER_FILE := BUFFER_FILE c;
  KEEP_BUFFER := k; TIMEOUT_S := TIMEOUT_S c;
  PCL_BINARY := PCL_BINARY c; PCL_ARGS := PCL_ARGS c;
  FILE_DIR := FILE_DIR c; FILE_BASENAME := FILE_BASENAME c;
  FILE_VIEWER := FILE_VIEWER c; CONV_FORMAT := CONV_FORMAT c;
  PNG_PHOSPHOR := PNG_PHOSPHOR c; PNG_PHOSPHOR_CMD := PNG_PHOSPHOR_CMD c;
  PNG_PHOSPHOR_ARGS := PNG_PHOSPHOR_ARGS c; PREVIEW := PREVIEW c;
  PREVIEW_NATIVE := PREVIEW_NATIVE c;
  COMMANDS_STARTUP := COMMANDS_STARTUP c; COMMANDS_DELAY := COMMANDS_DELAY c
|}.

(** The two programs under [src/]: the terminal tool [pcl_dump.py] and the
    GUI tool [scope_dump_pro.py].  Their monitors, renderers and listeners
    differ in a few places only, and the definitions below branch on the
    variant exactly there. *)
Inductive Variant : Type := Terminal | Pro.

(** ** Effects, exceptions and the shared world *)

(** How a child process started through [subprocess] ends: it exits with a
    status, or the spawn itself fails with an [OSError] whose text is
    [err]. *)
Inductive ProcResult : Type :=
| ProcExit (code : Z)
| ProcOSError (err : string).

Inductive event : Type :=
| Console (text : string)              (* printConsole(text) *)
| Sleep (ms : Z)                       (* time.sleep, in milliseconds *)
| Sampled (size : nat)                 (* getSize(readfile) *)
| RunConverter (cmd : string)          (* check_output(render_command) *)
| RunPhosphor (cmd : string)           (* subprocess.run(phosphor) *)
| RunViewer (cmd : string)             (* check_output(viewer) *)
| NativePreview (file : string)        (* Pro: previewImage / previewPDF *)
| LastCapture (stamp : string)         (* Pro: gui.status_last_capture.set *)
| Truncated                            (* open(BUFFER_FILE, 'w').close() *)
| SerialOpen
| SerialWrite (data : string)          (* ser.write(command.encode()) *)
| SerialRead (b : ascii)               (* ser.read(1) *)
| OpenedForWrite                       (* open(BUFFER_FILE, 'wb') *)
| FileWrite (b : ascii)                (* dumpfile.write(databyte) *)
| FileFlush.                           (* dumpfile.flush() *)

Inductive exn : Type :=
| NameError (name : string)
| OSError
| FileNotFoundError.

(** A call returns, raises, or ends the whole process with [os._exit]. *)
Inductive outcome (A : Type) : Type :=
| Ok (a : A)
| Raise (e : exn)
| Exit (code : Z).
Arguments Ok {A} a.
Arguments Raise {A} e.
Arguments Exit {A} code.

(** The state the threads share.  [disk] is the content of [BUFFER_FILE]
    ([None]: the file does not exist); [paused] is the [serialPause] event.
    [wpos] and [wpending] belong to the listener's write handle
    [dumpfile]: its file offset and the bytes written but not yet
    flushed. *)
Record World : Type := {
  disk : option (list ascii);
  paused : bool;
  wpos : nat;
  wpending : list ascii
}.

(** A computation runs from a world to an outcome, the world it leaves and
    the effects it performed, oldest first.  An exception or an exit keeps
    the world and the effects reached so far. *)
Definition M (A : Type) : Type := World -> outcome A * World * list event.

Definition ret {A} (a : A) : M A := fun w => (Ok a, w, []).

Definition bind {A B} (m : M A) (k : A -> M B) : M B :=
  fun w =>
    match m w with
    | (Ok a, w', t) =>
        match k a w' with
        | (o, w'', t') => (o, w'', (t ++ t')%list)
        end
    | (Raise e, w', t) => (Raise e, w', t)
    | (Exit c, w', t) => (Exit c, w', t)
    end.

Definition raise {A} (e : exn) : M A := fun w => (Raise e, w, []).
Definition os_exit {A} (c : Z) : M A := fun w => (Exit c, w, []).

Notation "x <- m ;; k" := (bind m (fun x => k))
  (at level 61, m at next level, right associativity).
Notation "m ;; k" := (bind m (fun _ => k))
  (at level 61, right associativity).

Definition result {A} (r : outcome A * World * list event) : outcome A :=
  fst (fst r).
Definition world {A} (r : outcome A * World * list event) : World :=
  snd (fst r).
Definition events {A} (r : outcome A * World * list event) : list event :=
  snd r.

Definition emit (e : event) : M unit := fun w => (Ok tt, w, [e]).

Definition set_disk (d : option (list ascii)) : M unit :=
  fun w => (Ok tt, {| disk := d; paused := paused w; wpos := wpos w;
                      wpending := wpending w |}, []).

Definition set_paused (p : bool) : M unit :=
  fun w => (Ok tt, {| disk := disk w; paused := p; wpos := wpos w;
                      wpending := wpending w |}, []).

Definition get_disk : M (option (list ascii)) :=
  fun w => (Ok (disk w), w, []).
Definition is_set : M bool := fun w => (Ok (paused w), w, []).

Definition when (b : bool) (m : M unit) : M unit := if b then m else ret tt.

(** [printConsole]: only the text reaches the trace. *)
Definition printConsole (text : string) : M unit := emit (Console text).

(** [str(n)] for a non-negative integer, and for any integer. *)
Definition str (n : nat) : string := NilEmpty.string_of_uint (Nat.to_uint n).

Definition str_Z (z : Z) : string :=
  if Z.ltb z 0 then "-" ++ str (Z.to_nat (- z)) else str (Z.to_nat z).

Definition str_bool (b : bool) : string := if b then "True" else "False".

Definition upper_char (c : ascii) : ascii :=
  let n := nat_of_ascii c in
  if (Nat.leb 97 n && Nat.leb n 122)%bool then ascii_of_nat (n - 32) else c.

Fixpoint upper (s : string) : string :=
  match s with
  | EmptyString => EmptyString
  | String c rest => String (upper_char c) (upper rest)
  end.

(** ** The monitor: getSize, renderFile, clearBuffer, timerRun *)

(** [open(BUFFER_FILE, 'rb')]: the content behind the handle, or
    [FileNotFoundError]. *)
Definition open_rb : M (list ascii) :=
  d <- get_disk ;;
  match d with
  | Some content => ret content
  | None => raise FileNotFoundError
  end.

(** [getSize]: seek to the end, tell. *)
Definition getSize (content : list ascii) : nat := List.length content.

(** [subprocess.check_output(cmd, shell=True)] inside
    [try ... except CalledProcessError]: a non-zero status runs the
    handler, [OSError] is not caught. *)
Definition check_output_catching (r : ProcResult) (handler : Z -> M unit)
    : M unit :=
  match r with
  | ProcExit c => if Z.eqb c 0 then ret tt else handler c
  | ProcOSError _ => raise OSError
  end.

(** [subprocess.run(cmd, shell=True)] inside [try ... except OSError]:
    the status is not looked at. *)
Definition run_catching (r : ProcResult) (handler : string -> M unit)
    : M unit :=
  match r with
  | ProcExit _ => ret tt
  | ProcOSError err => handler err
  end.

(** [str(err)] for the [CalledProcessError] of a command that ended with
    return code [code].  A negative return code means the command was
    killed by the signal of that number; Python then names the signal
    through [signal.Signals], whose table is the platform's:
    [signal_names n] is the name of signal [n], or [None] where
    [signal.Signals(n)] raises [ValueError]. *)
Definition str_CalledProcessError (signal_names : Z -> option string)
    (cmd : string) (code : Z) : string :=
  if Z.ltb code 0 then
    match signal_names (Z.opp code) with
    | Some name =>
        "Command '" ++ cmd ++ "' died with <Signals." ++ name ++ ": "
          ++ str_Z (Z.opp code) ++ ">."
    | None =>
        "Command '" ++ cmd ++ "' died with unknown signal "
          ++ str_Z (Z.opp code) ++ "."
    end
  else
    "Command '" ++ cmd ++ "' returned non-zero exit status "
      ++ str_Z code ++ ".".

(** How [Image.open(file)] in [previewImage] of the GUI variant ends: the
    image opens, the file is not there ([FileNotFoundError]), or it cannot
    be read as an image ([UnidentifiedImageError], an [OSError]). *)
Inductive ImageOpen : Type :=
| ImageOpens
| ImageMissing
| ImageUnreadable.

(** What the outside world answers during one render: the clock in the two
    formats the code prints it in, the platform's signal names, how the
    three child processes end and how the native preview's [Image.open]
    ends. *)
Record RenderEnv : Type := {
  now : string;                  (* now.strftime("%Y-%m-%d_%H:%M:%S") *)
  now_label : string;            (* now.strftime("%Y-%m-%d %H:%M:%S") *)
  signal_names : Z -> option string;
  converter : ProcResult;
  phosphor : ProcResult;
  viewer : ProcResult;
  image : ImageOpen
}.

Definition file_name (cfg : Config) (r : RenderEnv) : string :=
  FILE_DIR cfg ++ "/" ++ FILE_BASENAME cfg ++ now r ++ "." ++ CONV_FORMAT cfg.

Definition render_command (cfg : Config) (r : RenderEnv) : string :=
  PCL_BINARY cfg ++ " " ++ PCL_ARGS cfg ++ " " ++ file_name cfg r
    ++ " " ++ BUFFER_FILE cfg.

Definition phosphor_command (cfg : Config) (r : RenderEnv) : string :=
  PNG_PHOSPHOR_CMD cfg ++ " " ++ file_name cfg r ++ " "
    ++ PNG_PHOSPHOR_ARGS cfg ++ " " ++ file_name cfg r.

Definition viewer_command (cfg : Config) (r : RenderEnv) : string :=
  FILE_VIEWER cfg ++ " " ++ file_name cfg r.

Definition msg_decode_failed (v : Variant) (cfg : Config) (r : RenderEnv)
    (code : Z) : string :=
  "ERROR: Failed to decode "
    ++ match v with Terminal => "PCL" | Pro => "data" end ++ " using " ++ DQ
    ++ PCL_BINARY cfg ++ DQ ++ " with error "
    ++ str_CalledProcessError (signal_names r) (render_command cfg r) code
    ++ "!".

Definition msg_phosphor_failed (cfg : Config) (r : RenderEnv) (err : string)
    : string :=
  "ERROR: Failed to run phosphor processing on file " ++ DQ
    ++ file_name cfg r ++ DQ ++ " with error " ++ err ++ "!".

Definition msg_viewer_failed (cfg : Config) (r : RenderEnv) (code : Z)
    : string :=
  "WARNING: Failed to launch viewer " ++ DQ ++ FILE_VIEWER cfg ++ DQ
    ++ " with error "
    ++ str_CalledProcessError (signal_names r) (viewer_command cfg r) code
    ++ "!".

(** [Image.open(file)] at the start of [previewImage]: no handler is
    around it. *)
Definition open_image (i : ImageOpen) : M unit :=
  match i with
  | ImageOpens => ret tt
  | ImageMissing => raise FileNotFoundError
  | ImageUnreadable => raise OSError
  end.

(** The last step of [renderFile].  The terminal tool launches the viewer
    when [PREVIEW] is set.  The GUI tool does so only when its native
    preview is off; otherwise it opens its own preview window (a GUI
    action, recorded as an event): [previewImage] for png, which opens the
    output with [Image.open] and lets its exception through, [previewPDF]
    for pdf, which catches its failures and shows a warning. *)
Definition preview (v : Variant) (cfg : Config) (r : RenderEnv) : M unit :=
  let launch :=
    printConsole "Rendered file, launching viewer..." ;;
    emit (RunViewer (viewer_command cfg r)) ;;
    check_output_catching (viewer r)
      (fun code => printConsole (msg_viewer_failed cfg r code)) in
  match v with
  | Terminal =>
      if PREVIEW cfg then launch
      else printConsole "Preview disabled, proceeding..."
  | Pro =>
      if PREVIEW cfg && negb (PREVIEW_NATIVE cfg) then launch
      else if PREVIEW_NATIVE cfg then
        if String.eqb (CONV_FORMAT cfg) "png" then
          emit (NativePreview (file_name cfg r)) ;;
          open_image (image r)
        else if String.eqb (CONV_FORMAT cfg) "pdf" then
          emit (NativePreview (file_name cfg r))
        else ret tt
      else printConsole "Preview disabled, proceeding..."
  end.

Definition renderFile (v : Variant) (cfg : Config) (r : RenderEnv) : M unit :=
  when (match v with Pro => true | Terminal => false end)
    (emit (LastCapture (now_label r))) ;;
  emit (RunConverter (render_command cfg r)) ;;
  check_output_catching (converter r)
    (fun code => printConsole (msg_decode_failed v cfg r code)) ;;
  when (String.eqb (CONV_FORMAT cfg) "png" && PNG_PHOSPHOR cfg)
    (printConsole "Phosphor PNG mode enabled, processing..." ;;
     emit (RunPhosphor (phosphor_command cfg r)) ;;
     run_catching (phosphor r)
       (fun err => printConsole (msg_phosphor_failed cfg r err))) ;;
  preview v cfg r.

Definition clearBuffer (cfg : Config) : M unit :=
  if KEEP_BUFFER cfg then ret tt
  else
    bufferfile <- open_rb ;;
    if Nat.eqb (getSize bufferfile) 0 then ret tt
    else
      set_disk (Some []) ;;
      emit Truncated ;;
      printConsole "Cleared buffer on disk".

(** What happens around one pass of [timerRun]'s loop body: what the other
    threads do to the buffer while the monitor sleeps, and the render
    environment should the pass end in a render. *)
Record CycleEnv : Type := {
  during_sleep : list ascii -> list ascii;
  render_env : RenderEnv
}.

(** [getSize(readfile)] after the sleep.  The handle opened before the
    sleep is still open and sees what the file holds by now; a buffer file
    unlinked in the meantime is not modelled and reads as empty. *)
Definition sample_again : M nat :=
  d <- get_disk ;;
  match d with
  | Some content => ret (getSize content)
  | None => ret 0
  end.

(** The second half of a running pass, from the wake-up on:
    [size_last_check] is sampled and compared with [size_first_check]. *)
Definition timerWake (v : Variant) (cfg : Config) (r : RenderEnv)
    (size_first_check : nat) : M unit :=
  size_last_check <- sample_again ;;
  emit (Sampled size_last_check) ;;
  if negb (Nat.eqb size_last_check 0) then
    when (Nat.eqb size_first_check 0)
      (printConsole "Starting job processing...") ;;
    if Nat.eqb size_last_check size_first_check then
      printConsole "Job complete, rendering..." ;;
      renderFile v cfg r ;;
      clearBuffer cfg
    else
      printConsole ("Receiving data (" ++ str size_last_check ++ " bytes).")
  else ret tt.

(** The first half of a running pass, up to the sleep: open the file,
    take [size_first_check], print the waiting line on an empty buffer. *)
Definition timerFirst : M nat :=
  readfile <- open_rb ;;
  let size_first_check := getSize readfile in
  emit (Sampled size_first_check) ;;
  when (Nat.eqb size_first_check 0) (printConsole "Waiting for input.") ;;
  ret size_first_check.

(** The paused branch of the loop body. *)
Definition timerPaused : M unit :=
  emit (Sleep 200) ;;
  printConsole "Capture paused, idle.".

(** What the other threads do to the file while the monitor sleeps. *)
Definition others_run (f : list ascii -> list ascii) : M unit :=
  d <- get_disk ;;
  set_disk (option_map f d).

(** One pass through the body of [while timer_runs.is_set()]. *)
Definition timerCycle (v : Variant) (cfg : Config) (env : CycleEnv) : M unit :=
  p <- is_set ;;
  if negb p then
    size_first_check <- timerFirst ;;
    emit (Sleep (1000 * TIMEOUT_S cfg)) ;;
    others_run (during_sleep env) ;;
    timerWake v cfg (render_env env) size_first_check
  else timerPaused.

(** [timerRun]: [timer_runs] is never cleared, so the loop runs for as long
    as the environment supplies passes. *)
Fixpoint timerRun (v : Variant) (cfg : Config) (envs : list CycleEnv) : M unit :=
  match envs with
  | [] => ret tt
  | env :: rest => timerCycle v cfg env ;; timerRun v cfg rest
  end.

Definition init_world (d : option (list ascii)) : World :=
  {| disk := d; paused := false; wpos := 0; wpending := [] |}.

(** ** The listener: listenSerial *)

(** A write of [data] at offset [pos] of a file holding [content].  The
    handle was opened with mode 'wb', not in append mode: after the file
    has been truncated behind its back the offset lies past the end and
    the gap reads as zero bytes. *)
Definition write_at (pos : nat) (data content : list ascii) : list ascii :=
  firstn pos content ++ repeat Ascii.zero (pos - List.length content)
    ++ data ++ skipn (pos + List.length data) content.

(** [dumpfile.write(databyte)]: into the handle's memory buffer. *)
Definition dumpfile_write (b : ascii) : M unit :=
  fun w => (Ok tt, {| disk := disk w; paused := paused w; wpos := wpos w;
                      wpending := wpending w ++ [b] |}, [FileWrite b]).

(** [dumpfile.flush()]: the pending bytes reach the file. *)
Definition dumpfile_flush : M unit :=
  fun w => (Ok tt, {| disk := option_map (write_at (wpos w) (wpending w)) (disk w);
                      paused := paused w;
                      wpos := wpos w + List.length (wpending w);
                      wpending := [] |}, [FileFlush]).

(** [open(BUFFER_FILE, "wb")] when it succeeds: the file is created or
    truncated and the handle starts at offset 0. *)
Definition open_wb : M unit :=
  fun w => (Ok tt, {| disk := Some []; paused := paused w; wpos := 0;
                      wpending := [] |}, [OpenedForWrite]).

(** The body of [while True:] in [listenSerial], where [b] is the byte the
    line delivers to [ser.read(1)]. *)
Definition listenStep (b : ascii) : M unit :=
  p <- is_set ;;
  if negb p then
    emit (SerialRead b) ;;
    dumpfile_write b ;;
    dumpfile_flush
  else ret tt.

(** The capture loop over the bytes the line delivers, pass by pass, for
    a listener that tests the gate at the head of each pass: a pass that
    finds the gate set consumes no byte; [fuel] bounds the number of passes,
    and the loop blocks in [ser.read] once the line has nothing more to
    deliver.  A pass is one unit here, so this loop does not tell where
    inside a pass the listener stands when the gate changes; for that, see
    [listener_step], where the test and the read are separate statements
    and a listener can wait inside [ser.read(1)]. *)
Fixpoint listenLoop (fuel : nat) (incoming : list ascii) : M unit :=
  match fuel with
  | O => ret tt
  | S fuel' =>
      match incoming with
      | [] => ret tt
      | b :: rest =>
          p <- is_set ;;
          listenStep b ;;
          listenLoop fuel' (if p then incoming else rest)
      end
  end.

(** What the listener meets at startup and on the line. *)
Record ListenEnv : Type := {
  serial_opens : bool;           (* serial.Serial(port, rate) succeeds *)
  buffer_opens : bool;           (* open(BUFFER_FILE, "wb") succeeds *)
  open_error : string;           (* str(err) of the OSError when one fails *)
  incoming : list ascii;         (* the bytes the line delivers *)
  passes : nat                   (* how long the capture loop is watched *)
}.

(** The names bound at module level in [pcl_dump.py]: its imports, its
    constants and its functions. *)
Definition pcl_dump_globals : list string :=
  ["serial"; "time"; "datetime"; "os"; "argparse"; "Thread"; "Event";
   "subprocess"; "sys"; "termios"; "tty";
   "SERIAL_PORT"; "SERIAL_RATE"; "SERIAL_IGNORE"; "BUFFER_FILE";
   "KEEP_BUFFER"; "TIMEOUT_S"; "PCL_BINARY"; "PCL_ARGS"; "FILE_DIR";
   "FILE_BASENAME"; "FILE_VIEWER"; "CONV_FORMAT"; "PNG_PHOSPHOR";
   "PNG_PHOSPHOR_CMD"; "PNG_PHOSPHOR_ARGS"; "PREVIEW"; "COMMANDS_STARTUP";
   "COMMANDS_DELAY"; "serialPause"; "version";
   "getSize"; "timerRun"; "renderFile"; "clearBuffer"; "printConsole";
   "getCh"; "handleInput"; "handleArgs"; "listenSerial"; "displayParams";
   "displayHelp"; "displayVersion"; "main"].

(** Evaluating a name that is not a local: found among the globals, or
    [NameError]. *)
Definition load_global (globals : list string) (name : string) : M unit :=
  if existsb (String.eqb name) globals then ret tt
  else raise (NameError name).

(** [command.replace('\r', '').replace('\n', '')] *)
Fixpoint strip_crlf (s : string) : string :=
  match s with
  | EmptyString => EmptyString
  | String c rest =>
      if (Ascii.eqb c (ascii_of_nat 13) || Ascii.eqb c (ascii_of_nat 10))%bool
      then strip_crlf rest
      else String c (strip_crlf rest)
  end.

Definition report_fatal (line : string) : M unit :=
  printConsole line ;;
  printConsole "Unable to continue, exiting..." ;;
  printConsole "Goodbye" ;;
  os_exit 5.

Definition msg_serial_failed (cfg : Config) (env : ListenEnv) : string :=
  "Failed to open interface " ++ SERIAL_PORT cfg ++ " with error "
    ++ open_error env ++ "!".

Definition msg_buffer_failed (cfg : Config) (env : ListenEnv) : string :=
  "Failed to open buffer file " ++ BUFFER_FILE cfg ++ " with error "
    ++ open_error env ++ "!".

Definition msg_skipping (cfg : Config) : string :=
  "Skipping configured interface " ++ SERIAL_PORT cfg
    ++ ". Serial input disabled.".

(** [serial.Serial(port, rate)] inside [try ... except OSError]. *)
Definition open_serial (cfg : Config) (env : ListenEnv) : M unit :=
  if serial_opens env then emit SerialOpen
  else report_fatal (msg_serial_failed cfg env).

(** [open(BUFFER_FILE, "wb")] inside [try ... except OSError]. *)
Definition open_buffer (cfg : Config) (env : ListenEnv) : M unit :=
  if buffer_opens env then open_wb
  else report_fatal (msg_buffer_failed cfg env).

(** The startup-command block of [pcl_dump.py]'s [listenSerial].  Each
    console line goes through [logger.printConsole], which first evaluates
    the name [logger]. *)
Fixpoint send_startup_terminal (globals : list string) (delay : Z)
    (commands : list string) : M unit :=
  match commands with
  | [] => ret tt
  | command :: rest =>
      load_global globals "logger" ;;
      printConsole ("Sending startup command " ++ strip_crlf command ++ "...") ;;
      emit (SerialWrite command) ;;
      emit (Sleep delay) ;;
      send_startup_terminal globals delay rest
  end.

(** [listenSerial] of [pcl_dump.py], run with the module's [globals]. *)
Definition listenSerial_terminal (globals : list string) (cfg : Config)
    (env : ListenEnv) : M unit :=
  if negb (SERIAL_IGNORE cfg) then
    open_serial cfg env ;;
    load_global globals "logger" ;;
    printConsole "Executing any startup commands..." ;;
    send_startup_terminal globals (COMMANDS_DELAY cfg) (COMMANDS_STARTUP cfg) ;;
    open_buffer cfg env ;;
    listenLoop (passes env) (incoming env)
  else printConsole (msg_skipping cfg).

(** The startup-command loop in [main] of [scope_dump_pro.py]: the delay
    comes first, then the console line, then [serial.sendMessage]. *)
Fixpoint send_startup_pro (delay : Z) (commands : list string) : M unit :=
  match commands with
  | [] => ret tt
  | command :: rest =>
      emit (Sleep delay) ;;
      printConsole ("Sending startup command " ++ strip_crlf command ++ "...") ;;
      emit (SerialWrite command) ;;
      send_startup_pro delay rest
  end.

(** [SerialListener.__init__]: the port is opened when the object is
    built. *)
Definition SerialListener_init (cfg : Config) (env : ListenEnv) : M unit :=
  when (negb (SERIAL_IGNORE cfg)) (open_serial cfg env).

(** [SerialListener.listenSerial] of [scope_dump_pro.py]. *)
Definition listenSerial_pro (cfg : Config) (env : ListenEnv) : M unit :=
  if negb (SERIAL_IGNORE cfg) then
    open_buffer cfg env ;;
    listenLoop (passes env) (incoming env)
  else printConsole (msg_skipping cfg).

(** The part of [main] of [scope_dump_pro.py] that leads to capture: build
    the listener, send the startup commands, then run the listener
    thread. *)
Definition capture_startup_pro (cfg : Config) (env : ListenEnv) : M unit :=
  SerialListener_init cfg env ;;
  when (negb (SERIAL_IGNORE cfg))
    (printConsole "Executing any startup commands..." ;;
     send_startup_pro (COMMANDS_DELAY cfg) (COMMANDS_STARTUP cfg)) ;;
  printConsole "Starting timer thread..." ;;
  printConsole "Starting keyboard input thread..." ;;
  printConsole "Starting serial listener thread..." ;;
  listenSerial_pro cfg env.

(** ** The keyboard: handleInput *)

(** [char.lower()] as [handleInput] uses it, in comparisons with the
    letters q, p, r, i and h.  On the ASCII range this is [str.lower()].
    A key outside that range is left as it is: [str.lower()] may change it,
    but never into one of these five letters, so every comparison made by
    the handler has the same answer. *)
Definition lower (c : ascii) : ascii :=
  let n := nat_of_ascii c in
  if (Nat.leb 65 n && Nat.leb n 90)%bool then ascii_of_nat (n + 32) else c.

Definition displayParams (cfg : Config) : M unit :=
  printConsole ("Serial params:        " ++ SERIAL_PORT cfg ++ " @ "
                ++ str_Z (SERIAL_RATE cfg) ++ " using a "
                ++ str_Z (TIMEOUT_S cfg) ++ "s timeout") ;;
  let buffer_persistence :=
    if KEEP_BUFFER cfg then " with persistence" else " without persistence" in
  printConsole ("Buffer on disk:       " ++ BUFFER_FILE cfg
                ++ buffer_persistence) ;;
  printConsole ("Render options:       " ++ upper (CONV_FORMAT cfg)
                ++ " (using " ++ DQ ++ PCL_BINARY cfg ++ DQ ++ " with "
                ++ DQ ++ PCL_ARGS cfg ++ DQ ++ ")") ;;
  printConsole ("File storage:         " ++ FILE_DIR cfg ++ " (using " ++ DQ
                ++ FILE_BASENAME cfg ++ DQ ++ " as the prefix)") ;;
  printConsole ("Preview:              " ++ str_bool (PREVIEW cfg)
                ++ " (using " ++ DQ ++ FILE_VIEWER cfg ++ DQ
                ++ " to display files)") ;;
  emit (Sleep 300).

Definition displayHelp : M unit :=
  printConsole "Help:" ;;
  printConsole "H or F1    [H]elp" ;;
  printConsole "P          [P]ause serial input" ;;
  printConsole "R          [R]esume serial input" ;;
  printConsole "Q          [Q]uit PCL dump" ;;
  printConsole "".

(** The body of [while True:] in [handleInput] of [pcl_dump.py] for the key
    [char]; the tests are consecutive [if]s, not an [elif] chain.  A single
    character never equals "F1", so help is reached through [h] only.  The
    GUI variant routes the same two gate keys through [startStopSerial],
    which also clears the buffer first and the gate second. *)
Definition handleKey (cfg : Config) (char : ascii) : M unit :=
  when (Ascii.eqb (lower char) "q"%char)
    (printConsole "'Q' received, exiting..." ;;
     emit (Sleep 500) ;;
     printConsole "Goodbye" ;;
     os_exit 0) ;;
  when (Ascii.eqb (lower char) "p"%char)
    (printConsole "'P' received, aborting capture..." ;;
     set_paused true) ;;
  when (Ascii.eqb (lower char) "r"%char)
    (printConsole "'R' received, resuming serial capture..." ;;
     clearBuffer cfg ;;
     set_paused false) ;;
  when (Ascii.eqb (lower char) "i"%char) (displayParams cfg) ;;
  when (Ascii.eqb (lower char) "h"%char) displayHelp.

Fixpoint handleInput (cfg : Config) (keys : list ascii) : M unit :=
  match keys with
  | [] => ret tt
  | char :: rest => handleKey cfg char ;; handleInput cfg rest
  end.

(** The controller's two commands, as the key handler runs them. *)
Definition pause (cfg : Config) : M unit := handleKey cfg "p"%char.
Definition resume (cfg : Config) : M unit := handleKey cfg "r"%char.

(** * The vocabulary of the statements

    Readers of traces, the environments the statements quantify over, and
    the statement-level model of the two threads. *)

(** ** Reading traces *)

(** A completion is a render: the monitor starts the converter exactly when
    it has declared the job complete. *)
Definition is_render (e : event) : bool :=
  match e with RunConverter _ => true | _ => false end.

Definition renders (t : list event) : nat := List.length (filter is_render t).



(** The effects every running pass of the monitor starts with: first
    sample, the waiting line on an empty buffer, the sleep, second
    sample. *)
Definition sampling (cfg : Config) (S0 S1 : nat) : list event :=
  (Sampled S0 ::
   (if Nat.eqb S0 0 then [Console "Waiting for input."] else []) ++
   [Sleep (1000 * TIMEOUT_S cfg); Sampled S1])%list.

(** ** Worlds and environments *)

(** [w] with the buffer file holding [content], and [w] with the gate set
    to [p]. *)
Definition with_disk (w : World) (content : list ascii) : World :=
  {| disk := Some content; paused := paused w; wpos := wpos w;
     wpending := wpending w |}.

Definition with_paused (w : World) (p : bool) : World :=
  {| disk := disk w; paused := p; wpos := wpos w; wpending := wpending w |}.

(** A sleep during which nobody touches the buffer. *)
Definition quiet : list ascii -> list ascii := fun content => content.

(** The members of [signal.Signals] on x86 Linux, by number. *)
Definition linux_signals : list (Z * string) :=
  [(1%Z, "SIGHUP"); (2%Z, "SIGINT"); (3%Z, "SIGQUIT"); (4%Z, "SIGILL");
   (5%Z, "SIGTRAP"); (6%Z, "SIGABRT"); (7%Z, "SIGBUS"); (8%Z, "SIGFPE");
   (9%Z, "SIGKILL"); (10%Z, "SIGUSR1"); (11%Z, "SIGSEGV"); (12%Z, "SIGUSR2");
   (13%Z, "SIGPIPE"); (14%Z, "SIGALRM"); (15%Z, "SIGTERM");
   (16%Z, "SIGSTKFLT"); (17%Z, "SIGCHLD"); (18%Z, "SIGCONT");
   (19%Z, "SIGSTOP"); (20%Z, "SIGTSTP"); (21%Z, "SIGTTIN");
   (22%Z, "SIGTTOU"); (23%Z, "SIGURG"); (24%Z, "SIGXCPU"); (25%Z, "SIGXFSZ");
   (26%Z, "SIGVTALRM"); (27%Z, "SIGPROF"); (28%Z, "SIGWINCH");
   (29%Z, "SIGIO"); (30%Z, "SIGPWR"); (31%Z, "SIGSYS"); (34%Z, "SIGRTMIN");
   (64%Z, "SIGRTMAX")].

Definition linux_signal_names (n : Z) : option string :=
  option_map snd (find (fun p => Z.eqb (fst p) n) linux_signals).

(** A render in which every child process exits with status 0. *)
Definition render_ok : RenderEnv :=
  {| now := "2024-01-01_00:00:00"; now_label := "2024-01-01 00:00:00";
     signal_names := linux_signal_names;
     converter := ProcExit 0; phosphor := ProcExit 0; viewer := ProcExit 0;
     image := ImageOpens |}.

(** ** Timed appends *)

(** The bytes the listener has flushed, each with the instant (in
    milliseconds) at which its flush completed. *)
Definition arrivals : Type := list (Z * ascii).

(** The bytes flushed up to and including instant [t]. *)
Definition arrived (t : Z) (l : arrivals) : list ascii :=
  map snd (filter (fun a => Z.leb (fst a) t) l).

(** Consecutive appends are in order and less than [T] apart. *)
Fixpoint spaced (T : Z) (times : list Z) : Prop :=
  match times with
  | a :: (b :: _) as rest => (a <= b < a + T)%Z /\ spaced T rest
  | _ => True
  end.

(** The listener right after [open(BUFFER_FILE, "wb")]. *)
Definition listener_opened : World := world (open_wb (init_world None)).

(** The world once the listener has taken [bytes] from the line. *)
Definition captured (bytes : list ascii) : World :=
  world (listenLoop (List.length bytes) bytes listener_opened).

(** What the buffer file holds at instant [t]: what the capture loop has
    made of the bytes arrived by then. *)
Definition buffer_at (t : Z) (l : arrivals) : list ascii :=
  match disk (captured (arrived t l)) with
  | Some content => content
  | None => []
  end.

(** The world after one running pass of the listener has taken [b]. *)
Definition flushed (b : ascii) (w : World) : World :=
  {| disk := option_map (write_at (wpos w) (wpending w ++ [b])) (disk w);
     paused := paused w;
     wpos := wpos w + List.length (wpending w ++ [b]);
     wpending := [] |}.

(** Three appends 1.5 s apart. *)
Definition three_appends : arrivals :=
  [(0%Z, "a"%char); (1500%Z, "b"%char); (3000%Z, "c"%char)].

(** ** Silent passes and failing renders *)

(** The other threads leave the buffer alone during the sleep. *)
Definition quiet_env (e : CycleEnv) : Prop :=
  forall content, during_sleep e content = content.

(** The render comes back: converter and viewer end with an exit status,
    whatever it is, and the native preview can open its image. *)
Definition comes_back (r : RenderEnv) : Prop :=
  (exists c1, converter r = ProcExit c1) /\
  (exists c3, viewer r = ProcExit c3) /\
  image r = ImageOpens.

(** A running pass over an empty, untouched buffer. *)
Definition idle_pass (cfg : Config) : list event := sampling cfg 0 0.

Definition quiet_pass : CycleEnv :=
  {| during_sleep := quiet; render_env := render_ok |}.

(** Whether the configuration asks for the phosphor step and for a
    preview, read off the tests in [renderFile]. *)
Definition phosphor_configured (cfg : Config) : bool :=
  String.eqb (CONV_FORMAT cfg) "png" && PNG_PHOSPHOR cfg.

Definition preview_configured (v : Variant) (cfg : Config) : bool :=
  match v with
  | Terminal => PREVIEW cfg
  | Pro =>
      (PREVIEW cfg && negb (PREVIEW_NATIVE cfg))
      || (PREVIEW_NATIVE cfg
          && (String.eqb (CONV_FORMAT cfg) "png"
              || String.eqb (CONV_FORMAT cfg) "pdf"))
  end.

(** A render whose converter exits with status 1. *)
Definition render_failing : RenderEnv :=
  {| now := "2024-01-01_00:00:00"; now_label := "2024-01-01 00:00:00";
     signal_names := linux_signal_names;
     converter := ProcExit 1; phosphor := ProcExit 0; viewer := ProcExit 0;
     image := ImageOpens |}.




Definition with_format (c : Config) (fmt : string) : Config := {|
  SERIAL_PORT := SERIAL_PORT c; SERIAL_RATE := SERIAL_RATE c;
  SERIAL_IGNORE := SERIAL_IGNORE c; BUFFER_FILE := BUFFER_FILE c;
  KEEP_BUFFER := KEEP_BUFFER c; TIMEOUT_S := TIMEOUT_S c;
  PCL_BINARY := PCL_BINARY c; PCL_ARGS := PCL_ARGS c;
  FILE_DIR := FILE_DIR c; FILE_BASENAME := FILE_BASENAME c;
  FILE_VIEWER := FILE_VIEWER c; CONV_FORMAT := fmt;
  PNG_PHOSPHOR := PNG_PHOSPHOR c; PNG_PHOSPHOR_CMD := PNG_PHOSPHOR_CMD c;
  PNG_PHOSPHOR_ARGS := PNG_PHOSPHOR_ARGS c; PREVIEW := PREVIEW c;
  PREVIEW_NATIVE := PREVIEW_NATIVE c;
  COMMANDS_STARTUP := COMMANDS_STARTUP c; COMMANDS_DELAY := COMMANDS_DELAY c
|}.


(** ** The gate keys *)

Definition is_truncate (e : event) : bool :=
  match e with Truncated => true | _ => false end.

Definition is_resume_key (k : ascii) : bool := Ascii.eqb (lower k) "r".


(** ** The two threads, statement by statement

    The listener and the monitor run as threads with no lock between them.
    Here each thread advances one statement at a time under a schedule;
    every step runs the very action the pass-level functions are made
    of. *)

(** Where the listener thread stands inside its [while True:] body. *)
Inductive listener_pc : Type :=
| AtTest                         (* if not serialPause.is_set(): *)
| AtRead                         (* databyte = ser.read(1) *)
| AtWrite (databyte : ascii)     (* dumpfile.write(databyte) *)
| AtFlush                        (* dumpfile.flush() *)
| ListenerGone.

(** Where the monitor thread stands: at the head of its loop, or inside
    [time.sleep(TIMEOUT_S)] holding [size_first_check]. *)
Inductive monitor_pc : Type :=
| AtLoopHead
| Asleep (size_first_check : nat)
| MonitorGone.

Record Threads : Type := {
  shared : World;
  listener : listener_pc;
  monitor : monitor_pc;
  line : list ascii;             (* bytes the line has yet to deliver *)
  done : list event              (* effects so far, oldest first *)
}.

Inductive thread : Type := ListenerThread | MonitorThread.

(** One statement of the listener. *)
Definition listener_step (s : Threads) : Threads :=
  match listener s with
  | AtTest =>
      {| shared := shared s;
         listener := if paused (shared s) then AtTest else AtRead;
         monitor := monitor s; line := line s; done := done s |}
  | AtRead =>
      match line s with
      | [] => s
      | b :: rest =>
          {| shared := shared s; listener := AtWrite b; monitor := monitor s;
             line := rest; done := (done s ++ [SerialRead b])%list |}
      end
  | AtWrite b =>
      let r := dumpfile_write b (shared s) in
      {| shared := world r; listener := AtFlush; monitor := monitor s;
         line := line s; done := (done s ++ events r)%list |}
  | AtFlush =>
      let r := dumpfile_flush (shared s) in
      {| shared := world r; listener := AtTest; monitor := monitor s;
         line := line s; done := (done s ++ events r)%list |}
  | ListenerGone => s
  end.

(** What becomes of the threads when a monitor statement ends: a return
    moves the monitor on, an exception ends the monitor thread, [os._exit]
    ends both. *)
Definition monitor_moves {A} (s : Threads) (r : outcome A * World * list event)
    (next : A -> monitor_pc) : Threads :=
  {| shared := world r;
     listener := match result r with Exit _ => ListenerGone | _ => listener s end;
     monitor := match result r with Ok a => next a | _ => MonitorGone end;
     line := line s;
     done := (done s ++ events r)%list |}.

(** One step of the monitor: from the loop head into the sleep (or around
    the paused branch), and from the wake-up to the end of the pass. *)
Definition monitor_step (v : Variant) (cfg : Config) (r : RenderEnv)
    (s : Threads) : Threads :=
  match monitor s with
  | AtLoopHead =>
      if paused (shared s) then
        monitor_moves s (timerPaused (shared s)) (fun _ => AtLoopHead)
      else
        monitor_moves s
          ((size_first_check <- timerFirst ;;
            emit (Sleep (1000 * TIMEOUT_S cfg)) ;;
            ret size_first_check) (shared s))
          Asleep
  | Asleep size_first_check =>
      monitor_moves s (timerWake v cfg r size_first_check (shared s))
        (fun _ => AtLoopHead)
  | MonitorGone => s
  end.

(** The threads under a schedule: which thread runs its next statement. *)
Fixpoint interleave (v : Variant) (cfg : Config) (r : RenderEnv)
    (schedule : list thread) (s : Threads) : Threads :=
  match schedule with
  | [] => s
  | ListenerThread :: rest => interleave v cfg r rest (listener_step s)
  | MonitorThread :: rest => interleave v cfg r rest (monitor_step v cfg r s)
  end.

(** The listener alone, for [n] statements. *)
Fixpoint listener_steps (n : nat) (s : Threads) : Threads :=
  match n with
  | O => s
  | S n' => listener_steps n' (listener_step s)
  end.

(** Both threads at the head of their loops. *)
Definition threads_start (w : World) (incoming : list ascii) : Threads :=
  {| shared := w; listener := AtTest; monitor := AtLoopHead;
     line := incoming; done := [] |}.

(** A byte has been read from the line and has not reached the file. *)
Definition byte_in_flight (s : Threads) : bool :=
  match listener s with
  | AtWrite _ | AtFlush => true
  | _ => false
  end.

(** Outside the window between a read and its flush the handle's memory
    buffer is empty. *)
Definition settled (s : Threads) : Prop :=
  match listener s with
  | AtFlush | ListenerGone => True
  | _ => wpending (shared s) = []
  end.

(** ** Startup of the listener *)

Definition is_file_write (e : event) : bool :=
  match e with FileWrite _ | FileFlush | OpenedForWrite => true | _ => false end.

Definition is_serial_io (e : event) : bool :=
  match e with SerialWrite _ | SerialRead _ => true | _ => false end.

(** Port and buffer file open, and the line delivers [bytes]. *)
Definition line_delivers (bytes : list ascii) : ListenEnv :=
  {| serial_opens := true; buffer_opens := true; open_error := "";
     incoming := bytes; passes := List.length bytes |}.

(** The port opens, the buffer file cannot be opened for writing. *)
Definition buffer_unopenable : ListenEnv :=
  {| serial_opens := true; buffer_opens := false;
     open_error := "[Errno 13] Permission denied: '/tmp/scope.dump'";
     incoming := ["a"%char]; passes := 1 |}.

(** The commands written to the line, in order. *)
Definition serial_writes (t : list event) : list string :=
  flat_map (fun e => match e with SerialWrite c => [c] | _ => [] end) t.

Definition is_serial_read (e : event) : bool :=
  match e with SerialRead _ => true | _ => false end.

(** Every write to the line is directly followed by the inter-command
    delay. *)
Fixpoint writes_followed_by_delay (delay : Z) (t : list event) : bool :=
  match t with
  | [] => true
  | SerialWrite _ :: rest =>
      match rest with
      | Sleep d :: _ => Z.eqb d delay && writes_followed_by_delay delay rest
      | _ => false
      end
  | _ :: rest => writes_followed_by_delay delay rest
  end.

(** What the GUI variant's startup loop does for the commands: delay,
    console line, write. *)
Definition startup_block_pro (delay : Z) (commands : list string) : list event :=
  flat_map (fun command =>
              [Sleep delay;
               Console ("Sending startup command " ++ strip_crlf command ++ "...");
               SerialWrite command]) commands.

(** ** Further readers of traces *)

Definition truncations (t : list event) : nat :=
  List.length (filter is_truncate t).

Definition is_sample (e : event) : bool :=
  match e with Sampled _ => true | _ => false end.

(** What a paused pass of the monitor does. *)
Definition paused_pass : list event :=
  [Sleep 200; Console "Capture paused, idle."].

(** The child processes of a trace, by kind and in the order they were
    started: 1 the converter, 2 the phosphor step, 3 the viewer or the
    native preview. *)
Definition process_kinds (t : list event) : list nat :=
  flat_map (fun e =>
              match e with
              | RunConverter _ => [1]
              | RunPhosphor _ => [2]
              | RunViewer _ | NativePreview _ => [3]
              | _ => []
              end) t.

(** [r] with the phosphor step ending as [p]. *)
Definition with_phosphor (r : RenderEnv) (p : ProcResult) : RenderEnv :=
  {| now := now r; now_label := now_label r;
     signal_names := signal_names r; converter := converter r;
     phosphor := p; viewer := viewer r; image := image r |}.

(** [w'] differs from [w] in the content of the buffer file at most: gate
    and write handle are the same. *)
Definition same_gate_and_handle (w w' : World) : Prop :=
  paused w' = paused w /\ wpos w' = wpos w /\ wpending w' = wpending w.

(** A render whose converter cannot be spawned. *)
Definition render_unspawnable : RenderEnv :=
  {| now := "2024-01-01_00:00:00"; now_label := "2024-01-01 00:00:00";
     signal_names := linux_signal_names;
     converter := ProcOSError "[Errno 12] Cannot allocate memory";
     phosphor := ProcExit 0; viewer := ProcExit 0; image := ImageOpens |}.

(** A render in PNG mode whose phosphor step cannot be spawned. *)
Definition render_phosphor_unspawnable : RenderEnv :=
  with_phosphor render_ok (ProcOSError "[Errno 2] No such file or directory").

(** ** Further vocabulary for the listener *)

(** What one running pass of the listener does with the byte [b]. *)
Definition pass_events (b : ascii) : list event :=
  [SerialRead b; FileWrite b; FileFlush].

(** The world of a listener that has just flushed, with the file holding
    [content] and the handle's offset at its end. *)
Definition at_end_of (content : list ascii) : World :=
  {| disk := Some content; paused := false;
     wpos := List.length content; wpending := [] |}.

(** The handle has nothing pending and its offset is not inside the file:
    the file exists and is at most [wpos] long. *)
Definition offset_past_end (w : World) : Prop :=
  exists content,
    disk w = Some content /\ List.length content <= wpos w /\ wpending w = [].

Definition size_on_disk (w : World) : nat :=
  match disk w with
  | Some content => getSize content
  | None => 0
  end.


(** ** The keyboard and the buttons of the GUI variant *)

(** [SerialListener.startStopSerial] of [scope_dump_pro.py]. *)
Definition startStopSerial (cfg : Config) (mode : string) : M unit :=
  if String.eqb mode "start" then
    clearBuffer cfg ;;
    set_paused false ;;
    printConsole "Resume received, resuming capture..."
  else if String.eqb mode "stop" then
    set_paused true ;;
    printConsole "Pause received, aborting capture..."
  else ret tt.

(** [Input.serialControl]: what the buttons and hotkeys of the main window
    call. *)
Definition serialControl (cfg : Config) (command : string) : M unit :=
  if String.eqb command "stop" then startStopSerial cfg "stop"
  else if String.eqb command "start" then startStopSerial cfg "start"
  else ret tt.

(** [Input.displayHelp] of [scope_dump_pro.py]. *)
Definition displayHelp_pro : M unit :=
  printConsole "Help:" ;;
  printConsole "H or F1    [H]elp" ;;
  printConsole "I          [I]nformation parameters" ;;
  printConsole "P          [P]ause serial input" ;;
  printConsole "R          [R]esume serial input" ;;
  printConsole "Q          [Q]uit PCL dump" ;;
  printConsole "".

(** The body of [while True:] in [Input.handleInput] of
    [scope_dump_pro.py] for the key [char]. *)
Definition handleKey_pro (cfg : Config) (char : ascii) : M unit :=
  when (Ascii.eqb (lower char) "q"%char)
    (printConsole "Quit signal received, exiting..." ;;
     emit (Sleep 500) ;;
     printConsole "Goodbye" ;;
     os_exit 0) ;;
  when (Ascii.eqb (lower char) "p"%char)
    (printConsole "Pause received, aborting capture..." ;;
     startStopSerial cfg "stop") ;;
  when (Ascii.eqb (lower char) "r"%char)
    (printConsole "Resume received, resuming serial capture..." ;;
     startStopSerial cfg "start") ;;
  when (Ascii.eqb (lower char) "i"%char) (displayParams cfg) ;;
  when (Ascii.eqb (lower char) "h"%char) displayHelp_pro.

(** The keys [handleInput] reacts to, whatever their case. *)
Definition changes_state (k : ascii) : bool :=
  Ascii.eqb (lower k) "q" || Ascii.eqb (lower k) "p" || Ascii.eqb (lower k) "r".

Definition prints_only (k : ascii) : bool :=
  Ascii.eqb (lower k) "i" || Ascii.eqb (lower k) "h".

Definition quit_lines : list event :=
  [Console "'Q' received, exiting..."; Sleep 500; Console "Goodbye"].


(** ** What printConsole writes to the terminal

    [printConsole] above records the text it is given.  Here is what
    [print] then receives: the text justified to the width of the terminal
    and, for the status lines, the animated dots. *)

(** [blank_string]: [i = 0; while i < int(columns): blank_string += ' '],
    the loop running for [fuel] rounds at most. *)
Fixpoint blank_loop (fuel i columns : nat) (blank_string : string) : string :=
  match fuel with
  | O => blank_string
  | S fuel' =>
      if Nat.ltb i columns
      then blank_loop fuel' (i + 1) columns (blank_string ++ " ")
      else blank_string
  end.

(** [dots]: [i = 1; while i < seconds: dots += '.'], likewise. *)
Fixpoint dots_loop (fuel i seconds : nat) (dots : string) : string :=
  match fuel with
  | O => dots
  | S fuel' =>
      if Nat.ltb i seconds
      then dots_loop fuel' (i + 1) seconds (dots ++ ".")
      else dots
  end.

(** ['{:<width}'.format(s)]: [s] padded with spaces on the right up to
    [width]; a longer [s] is left as it is. *)
Definition ljust (width : nat) (s : string) : string :=
  s ++ string_of_list_ascii (repeat " "%char (width - String.length s)).

(** What one call of [printConsole] of [pcl_dump.py] hands to [print], each
    chunk with its [end].  [columns] is the second number of [stty size],
    [second] the seconds of the clock, of which the last digit counts.
    [None] stands for the [ValueError] that the format specification
    '{:<-1}' raises when the terminal reports no columns. *)
Definition printConsole_stdout (columns second : nat) (text_string : string)
    (newLine startNewLine animateDots : bool) : option (list string) :=
  if Nat.eqb columns 0 then None
  else
    let justify := ljust (columns - 1) in
    let text_string :=
      if startNewLine then CRLF ++ text_string else text_string in
    if newLine then Some [justify text_string ++ CRLF]
    else if animateDots then
      let blank_string := blank_loop columns 0 columns "" in
      let seconds := second mod 10 in
      let dots := dots_loop seconds 1 seconds "." in
      Some [justify blank_string ++ CR; justify (text_string ++ dots) ++ CR]
    else Some [justify text_string ++ CR].

(** A string of [n] copies of [c]. *)
Definition copies (n : nat) (c : ascii) : string :=
  string_of_list_ascii (repeat c n).

(** [s] holds neither a carriage return nor a line feed. *)
Fixpoint one_line (s : string) : bool :=
  match s with
  | EmptyString => true
  | String c rest =>
      negb (Ascii.eqb c (ascii_of_nat 13) || Ascii.eqb c (ascii_of_nat 10))
      && one_line rest
  end.

(** ** The logger of the GUI variant *)

(** Where a message of [Logger.printConsole] ends up. *)
Inductive sink : Type :=
| Stdout (chunk : string)        (* print(..., end=...) *)
| GuiLog (inserted : string)     (* gui.logLine: text_area.insert("end", ...) *)
| GuiRefresh.                    (* gui.refresh() *)

(** [GUI.logLine]: a line feed, then the text without its own line
    breaks. *)
Definition logLine (text_string : string) : sink :=
  GuiLog (LF ++ strip_crlf text_string).

(** [Logger.printConsole] of [scope_dump_pro.py].  [native_logger] is the
    constant [NATIVE_LOGGER], [timestamps] the logger's attribute, [stamp]
    the clock as [%Y-%m-%d %H:%M:%S]; [columns] and [second] as for the
    terminal variant.  [None] is the [ValueError] of a terminal without
    columns, which the GUI-only route does not meet. *)
Definition printConsole_pro (native_logger timestamps : bool) (stamp : string)
    (columns second : nat) (text_string : string)
    (newLine startNewLine animateDots logToGUI GUIOnly : bool)
    : option (list sink) :=
  let text_string :=
    if timestamps then "[" ++ stamp ++ "] " ++ text_string else text_string in
  if GUIOnly then
    Some ((if native_logger then [logLine text_string] else [])
            ++ [GuiRefresh])%list
  else if Nat.eqb columns 0 then None
  else
    let justify := ljust (columns - 1) in
    let text_string :=
      if startNewLine then CRLF ++ text_string else text_string in
    let to_gui :=
      if native_logger && logToGUI then [logLine text_string] else [] in
    if newLine then
      Some (Stdout (justify text_string ++ CRLF) :: to_gui ++ [GuiRefresh])%list
    else if animateDots then
      let blank_string := blank_loop columns 0 columns "" in
      let seconds := second mod 10 in
      let dots := dots_loop seconds 1 seconds "." in
      Some [Stdout (justify blank_string ++ CR);
            Stdout (justify (text_string ++ dots) ++ CR); GuiRefresh]
    else
      Some (Stdout (justify text_string ++ CR) :: to_gui ++ [GuiRefresh])%list.

Definition is_stdout (s : sink) : bool :=
  match s with Stdout _ => true | _ => false end.

Definition is_gui_log (s : sink) : bool :=
  match s with GuiLog _ => true | _ => false end.

(** Every line inserted into the GUI log is one line feed followed by text
    without line breaks. *)
Definition well_formed_log (s : sink) : bool :=
  match s with
  | GuiLog (String c rest) => Ascii.eqb c (ascii_of_nat 10) && one_line rest
  | GuiLog EmptyString => false
  | _ => true
  end.


(** ** Command-line arguments: handleArgs *)

(** The namespace [parser.parse_args()] returns: the two flags and the
    values of [-p], [-s], [-f] and, in the GUI variant, [-o] ([None] when
    the option was not given). *)
Record Args : Type := {
  arg_n : bool;
  arg_k : bool;
  arg_p : option string;
  arg_s : option Z;
  arg_f : option string;
  arg_o : option string
}.

(** [if args.p:] and [if args.s:]: an option that was not given, an empty
    string and the number 0 are all false. *)
Definition truthy_string (o : option string) : bool :=
  match o with
  | Some (String _ _) => true
  | _ => false
  end.

Definition truthy_int (o : option Z) : bool :=
  match o with
  | Some z => negb (Z.eqb z 0)
  | None => false
  end.

(** [c] with some of the globals that [handleArgs] assigns replaced. *)
Definition override (c : Config) (port : option string) (rate : option Z)
    (ignore keep : option bool) (buffer dir : option string) : Config := {|
  SERIAL_PORT := match port with Some p => p | None => SERIAL_PORT c end;
  SERIAL_RATE := match rate with Some r => r | None => SERIAL_RATE c end;
  SERIAL_IGNORE := match ignore with Some b => b | None => SERIAL_IGNORE c end;
  BUFFER_FILE := match buffer with Some f => f | None => BUFFER_FILE c end;
  KEEP_BUFFER := match keep with Some b => b | None => KEEP_BUFFER c end;
  TIMEOUT_S := TIMEOUT_S c;
  PCL_BINARY := PCL_BINARY c; PCL_ARGS := PCL_ARGS c;
  FILE_DIR := match dir with Some d => d | None => FILE_DIR c end;
  FILE_BASENAME := FILE_BASENAME c;
  FILE_VIEWER := FILE_VIEWER c; CONV_FORMAT := CONV_FORMAT c;
  PNG_PHOSPHOR := PNG_PHOSPHOR c; PNG_PHOSPHOR_CMD := PNG_PHOSPHOR_CMD c;
  PNG_PHOSPHOR_ARGS := PNG_PHOSPHOR_ARGS c; PREVIEW := PREVIEW c;
  PREVIEW_NATIVE := PREVIEW_NATIVE c;
  COMMANDS_STARTUP := COMMANDS_STARTUP c; COMMANDS_DELAY := COMMANDS_DELAY c
|}.

Definition set_SERIAL_IGNORE (c : Config) : Config :=
  override c None None (Some true) None None None.
Definition set_KEEP_BUFFER (c : Config) : Config :=
  override c None None None (Some true) None None.
Definition set_SERIAL_PORT (c : Config) (p : string) : Config :=
  override c (Some p) None None None None None.
Definition set_SERIAL_RATE (c : Config) (r : Z) : Config :=
  override c None (Some r) None None None None.
Definition set_BUFFER_FILE (c : Config) (f : string) : Config :=
  override c None None None None (Some f) None.
Definition set_FILE_DIR (c : Config) (d : string) : Config :=
  override c None None None None None (Some d).

(** [ArgHandler.handleArgs] of [scope_dump_pro.py], after parsing: the
    assignments to the globals, in the order of the source. *)
Definition handleArgs_pro (args : Args) (c : Config) : Config :=
  let c := if arg_n args then set_SERIAL_IGNORE c else c in
  let c := if arg_k args then set_KEEP_BUFFER c else c in
  let c := match arg_p args with
           | Some p => if truthy_string (arg_p args) then set_SERIAL_PORT c p else c
           | None => c
           end in
  let c := match arg_s args with
           | Some s => if truthy_int (arg_s args) then set_SERIAL_RATE c s else c
           | None => c
           end in
  let c := match arg_f args with
           | Some f => if truthy_string (arg_f args) then set_BUFFER_FILE c f else c
           | None => c
           end in
  match arg_o args with
  | Some o => if truthy_string (arg_o args) then set_FILE_DIR c o else c
  | None => c
  end.

(** [handleArgs] of [pcl_dump.py], after parsing.  The options are
    declared as [-p], [-s] and [-f], but the assignments read [args.port],
    [args.speed] and [args.buffer], which the namespace does not have:
    [inr name] is the [AttributeError] for the attribute [name], raised
    with the globals as the earlier assignments left them. *)
Definition handleArgs_terminal (args : Args) (c : Config)
    : Config * (unit + string) :=
  let c := if arg_n args then set_SERIAL_IGNORE c else c in
  let c := if arg_k args then set_KEEP_BUFFER c else c in
  if truthy_string (arg_p args) then (c, inr "port")
  else if truthy_int (arg_s args) then (c, inr "speed")
  else if truthy_string (arg_f args) then (c, inr "buffer")
  else (c, inl tt).

(** No option given. *)
Definition no_args : Args :=
  {| arg_n := false; arg_k := false; arg_p := None; arg_s := None;
     arg_f := None; arg_o := None |}.

(** The value of an option that counts: given and not false. *)
Definition given_string (o : option string) : option string :=
  if truthy_string o then o else None.

Definition given_int (o : option Z) : option Z :=
  if truthy_int o then o else None.

(** [pcl_dump.py -k -p /dev/ttyS0] *)
Definition args_keep_and_port : Args :=
  {| arg_n := false; arg_k := true; arg_p := Some "/dev/ttyS0";
     arg_s := None; arg_f := None; arg_o := None |}.


(** ** Further environments *)

(** [r] with the clock reading [stamp]. *)
Definition at_time (r : RenderEnv) (stamp : string) : RenderEnv :=
  {| now := stamp; now_label := now_label r;
     signal_names := signal_names r; converter := converter r;
     phosphor := phosphor r; viewer := viewer r; image := image r |}.

(** The port cannot be opened. *)
Definition port_unopenable : ListenEnv :=
  {| serial_opens := false; buffer_opens := true;
     open_error := "[Errno 2] could not open port /dev/ttyUSB0";
     incoming := ["a"%char]; passes := 1 |}.

(** * Properties *)

(** ** Traces and binds *)

Lemma renders_app t1 t2 : renders (t1 ++ t2) = renders t1 + renders t2.
Proof. unfold renders. rewrite filter_app, length_app. reflexivity. Qed.

Lemma renderFile_starts_converter v cfg r w :
  In (RunConverter (render_command cfg r)) (events (renderFile v cfg r w)).
Proof.
  unfold renderFile, events.
  destruct v; unfold bind at 1; cbn [when emit ret].
  - unfold bind at 1. cbn [emit].
    match goal with |- context [bind ?m ?k ?w] => destruct (bind m k w) as [[o w'] t] end.
    cbn. auto.
  - unfold bind at 1. cbn [emit].
    match goal with |- context [bind ?m ?k ?w] => destruct (bind m k w) as [[o w'] t] end.
    cbn. auto.
Qed.

Lemma bind_unfold {A B} (m : M A) (k : A -> M B) w :
  bind m k w =
    match result (m w) with
    | Ok a => (result (k a (world (m w))), world (k a (world (m w))),
               (events (m w) ++ events (k a (world (m w))))%list)
    | Raise e => (Raise e, world (m w), events (m w))
    | Exit c => (Exit c, world (m w), events (m w))
    end.
Proof.
  unfold bind, result, world, events.
  destruct (m w) as [[[a|e|c] w'] t]; cbn; try reflexivity.
  destruct (k a w') as [[o w''] t']. reflexivity.
Qed.

Lemma timerFirst_runs w content :
  disk w = Some content ->
  timerFirst w =
    (Ok (getSize content), w,
     Sampled (getSize content) ::
     (if Nat.eqb (getSize content) 0 then [Console "Waiting for input."]
      else [])).
Proof.
  intros Hd. unfold timerFirst, bind at 1, open_rb, bind at 1, get_disk.
  rewrite Hd. cbn [ret].
  destruct (Nat.eqb (getSize content) 0); reflexivity.
Qed.

(** The wake-up half of a pass, by cases on the two sizes. *)
Lemma timerWake_runs v cfg r S0 w content :
  disk w = Some content ->
  let S1 := getSize content in
  timerWake v cfg r S0 w =
    if Nat.eqb S1 0 then (Ok tt, w, [Sampled S1])
    else if Nat.eqb S1 S0 then
      let h := (renderFile v cfg r ;; clearBuffer cfg) w in
      (result h, world h,
       Sampled S1 :: Console "Job complete, rendering..." :: events h)
    else
      (Ok tt, w,
       Sampled S1 ::
       (if Nat.eqb S0 0 then [Console "Starting job processing..."] else []) ++
       [Console ("Receiving data (" ++ str S1 ++ " bytes).")])%list.
Proof.
  intros Hd S1.
  unfold timerWake, bind at 1, sample_again, bind at 1, get_disk.
  rewrite Hd. cbn [ret]. fold S1.
  destruct (Nat.eqb S1 0) eqn:E1; [reflexivity|].
  destruct (Nat.eqb S1 S0) eqn:E10.
  - assert (E0 : Nat.eqb S0 0 = false).
    { apply Nat.eqb_eq in E10. rewrite <- E10. exact E1. }
    rewrite E0. cbn [negb when].
    rewrite bind_unfold. cbn [emit result world events fst snd].
    rewrite bind_unfold. cbn [ret result world events fst snd].
    rewrite bind_unfold.
    cbn [printConsole emit result world events fst snd app]. reflexivity.
  - cbn [negb]. destruct (Nat.eqb S0 0); reflexivity.
Qed.

Lemma others_run_on w content f :
  disk w = Some content -> others_run f w = (Ok tt, with_disk w (f content), []).
Proof.
  intros Hd. unfold others_run, bind, get_disk, set_disk. rewrite Hd.
  reflexivity.
Qed.

Lemma timerCycle_running v cfg env w buf0 :
  paused w = false -> disk w = Some buf0 ->
  let S0 := getSize buf0 in
  let S1 := getSize (during_sleep env buf0) in
  let w1 := with_disk w (during_sleep env buf0) in
  timerCycle v cfg env w =
    if Nat.eqb S1 0 then (Ok tt, w1, sampling cfg S0 S1)
    else if Nat.eqb S1 S0 then
      let r := (renderFile v cfg (render_env env) ;; clearBuffer cfg) w1 in
      (result r, world r,
       (sampling cfg S0 S1 ++ Console "Job complete, rendering..." :: events r)%list)
    else
      (Ok tt, w1,
       (sampling cfg S0 S1 ++
        (if Nat.eqb S0 0 then [Console "Starting job processing..."] else []) ++
        [Console ("Receiving data (" ++ str S1 ++ " bytes).")])%list).
Proof.
  intros Hrun Hfile S0 S1 w1.
  unfold timerCycle. rewrite bind_unfold. unfold is_set.
  cbn [result world events fst snd]. rewrite Hrun. cbn [negb].
  rewrite bind_unfold, (timerFirst_runs w buf0 Hfile).
  cbn [result world events fst snd]. fold S0.
  rewrite bind_unfold. cbn [emit result world events fst snd].
  rewrite bind_unfold, (others_run_on w buf0 _ Hfile).
  cbn [result world events fst snd]. fold w1.
  rewrite (timerWake_runs v cfg _ S0 w1 (during_sleep env buf0) eq_refl).
  cbv zeta. fold S1. unfold sampling.
  destruct (Nat.eqb S1 0), (Nat.eqb S1 S0), (Nat.eqb S0 0);
    cbn [result world events fst snd app]; rewrite ?app_nil_r;
    try reflexivity.
  all: rewrite <- ?app_assoc; reflexivity.
Qed.

Lemma events_bind_incl {A B} (m : M A) (k : A -> M B) w e :
  In e (events (m w)) -> In e (events (bind m k w)).
Proof.
  unfold bind, events. destruct (m w) as [[[a|x|c] w'] t]; cbn; auto.
  destruct (k a w') as [[o w''] t']. cbn. intros H. apply in_or_app. auto.
Qed.

(** ** The monitor cycle (C1) *)

(** C1.  A pass of the monitor over a running (non-paused) gate samples the
    size [S0], sleeps the inactivity window, samples [S1], and then:
    with [S1 = 0] it does nothing more (no completion, no report, the
    buffer is left as found); with [S1 <> 0] and [S1 = S0] it announces the
    completed job and hands over to [renderFile] (whose converter command
    names the buffer file) and then [clearBuffer]; with [S1 <> 0] and
    [S1 <> S0] it only reports the byte count [S1]. *)
Theorem timerCycle_three_way v cfg env w buf0 :
  paused w = false ->
  disk w = Some buf0 ->
  let S0 := getSize buf0 in
  let S1 := getSize (during_sleep env buf0) in
  let w1 := with_disk w (during_sleep env buf0) in
  let r := timerCycle v cfg env w in
  exists rest,
    events r = (sampling cfg S0 S1 ++ rest)%list /\
    (S1 = 0 -> rest = [] /\ result r = Ok tt /\ world r = w1) /\
    (S1 <> 0 -> S1 = S0 ->
       let handoff := (renderFile v cfg (render_env env) ;; clearBuffer cfg) w1 in
       rest = Console "Job complete, rendering..." :: events handoff /\
       In (RunConverter (render_command cfg (render_env env))) rest /\
       result r = result handoff /\ world r = world handoff) /\
    (S1 <> 0 -> S1 <> S0 ->
       rest = ((if Nat.eqb S0 0 then [Console "Starting job processing..."]
                else []) ++
               [Console ("Receiving data (" ++ str S1 ++ " bytes).")])%list /\
       renders rest = 0 /\ result r = Ok tt /\ world r = w1).
Proof.
  intros Hrun Hfile S0 S1 w1 r.
  pose proof (timerCycle_running v cfg env w buf0 Hrun Hfile) as Hc.
  cbv zeta in Hc. fold S0 S1 w1 in Hc. fold r in Hc.
  destruct (Nat.eqb S1 0) eqn:E1.
  - apply Nat.eqb_eq in E1. exists []. rewrite Hc, app_nil_r.
    repeat split; auto; intros; contradiction.
  - apply Nat.eqb_neq in E1. destruct (Nat.eqb S1 S0) eqn:E10.
    + apply Nat.eqb_eq in E10.
      eexists. rewrite Hc. split; [reflexivity|].
      split; [intros; contradiction|]. split; [|intros; contradiction].
      intros _ _. cbv zeta. repeat split.
      right. apply events_bind_incl, renderFile_starts_converter.
    + apply Nat.eqb_neq in E10.
      eexists. rewrite Hc. split; [reflexivity|].
      split; [intros; contradiction|]. split; [intros; contradiction|].
      intros _ _. repeat split. destruct (Nat.eqb S0 0); reflexivity.
Qed.

Lemma timerCycle_three_way_witness :
  let w := init_world (Some ["a"%char]) in
  let env := {| during_sleep := quiet; render_env := render_ok |} in
  exists rest,
    events (timerCycle Terminal (default_config "/home/u") env w)
      = (sampling (default_config "/home/u") 1 1 ++ rest)%list /\
    In (RunConverter (render_command (default_config "/home/u") render_ok)) rest.
Proof.
  intros w env.
  destruct (timerCycle_three_way Terminal (default_config "/home/u") env w
              ["a"%char] eq_refl eq_refl) as [rest [He [_ [Hc _]]]].
  exists rest. split; [exact He|].
  apply Hc; [discriminate | reflexivity].
Defined.

(** ** Timed appends and the monitor (C2) *)

Lemma write_at_end (b : ascii) content :
  write_at (List.length content) [b] content = (content ++ [b])%list.
Proof.
  unfold write_at. rewrite firstn_all, Nat.sub_diag, skipn_all2.
  - cbn. reflexivity.
  - cbn. lia.
Qed.

Lemma listenStep_running b w :
  paused w = false ->
  listenStep b w = (Ok tt, flushed b w, [SerialRead b; FileWrite b; FileFlush]).
Proof.
  intros Hp. unfold listenStep, bind at 1, is_set. rewrite Hp. reflexivity.
Qed.

Lemma listenStep_paused b w :
  paused w = true -> listenStep b w = (Ok tt, w, []).
Proof.
  intros Hp. unfold listenStep, bind at 1, is_set. rewrite Hp. reflexivity.
Qed.

Lemma listenLoop_running n b rest w :
  paused w = false ->
  listenLoop (S n) (b :: rest) w =
    (result (listenLoop n rest (flushed b w)),
     world (listenLoop n rest (flushed b w)),
     [SerialRead b; FileWrite b; FileFlush]
       ++ events (listenLoop n rest (flushed b w)))%list.
Proof.
  intros Hp. cbn [listenLoop]. unfold bind at 1, is_set. rewrite Hp.
  unfold bind at 1. rewrite (listenStep_running b w Hp).
  destruct (listenLoop n rest (flushed b w)) as [[o w'] t]. reflexivity.
Qed.

(** A listener that starts with its offset at the end of the file and
    nothing pending appends the bytes it takes, in order. *)
Lemma listenLoop_appends bytes : forall w content,
  paused w = false -> disk w = Some content ->
  wpos w = List.length content -> wpending w = [] ->
  disk (world (listenLoop (List.length bytes) bytes w))
    = Some (content ++ bytes)%list.
Proof.
  induction bytes as [|b rest IH]; intros w content Hp Hd Hpos Hpend.
  - cbn. rewrite app_nil_r. exact Hd.
  - cbn [List.length]. rewrite (listenLoop_running _ b rest w Hp).
    cbn [world fst snd].
    rewrite (IH (flushed b w) (content ++ [b])%list).
    + rewrite <- app_assoc. reflexivity.
    + exact Hp.
    + unfold flushed. cbn [disk]. rewrite Hd, Hpos, Hpend. cbn [option_map].
      rewrite app_nil_l, write_at_end. reflexivity.
    + unfold flushed. cbn [wpos]. rewrite Hpos, Hpend, app_nil_l, length_app.
      reflexivity.
    + reflexivity.
Qed.

Lemma buffer_at_arrived t l : buffer_at t l = arrived t l.
Proof.
  unfold buffer_at, captured.
  rewrite (listenLoop_appends (arrived t l) listener_opened []);
    reflexivity.
Qed.

Lemma spaced_tail T a rest : spaced T (a :: rest) -> spaced T rest.
Proof. destruct rest; cbn; tauto. Qed.

(** In an ordered sequence nothing has arrived before its first append. *)
Lemma arrived_before_first T (l : arrivals) : forall a t,
  spaced T (map fst (a :: l)) -> (t < fst a)%Z -> arrived t (a :: l) = [].
Proof.
  induction l as [|b l IH]; intros a t Hs Ht; unfold arrived; cbn [filter].
  - destruct (Z.leb_spec (fst a) t); [lia | reflexivity].
  - destruct (Z.leb_spec (fst a) t); [lia |].
    cbn [map spaced] in Hs. destruct Hs as [Hab Hs].
    apply (IH b t Hs). lia.
Qed.

Lemma arrived_cons t a (l : arrivals) :
  arrived t (a :: l) =
    if Z.leb (fst a) t then snd a :: arrived t l else arrived t l.
Proof. unfold arrived. cbn [filter]. destruct (Z.leb (fst a) t); reflexivity. Qed.

(** While an append is still to come, a full window sees growth, unless
    nothing had arrived when the window opened. *)
Lemma spaced_growth T (l : arrivals) : forall t0 t1,
  spaced T (map fst l) ->
  (exists a, In a l /\ (t0 < fst a)%Z) ->
  (t0 + T <= t1)%Z ->
  List.length (arrived t0 l) = 0 \/
  List.length (arrived t0 l) < List.length (arrived t1 l).
Proof.
  induction l as [|a l IH]; intros t0 t1 Hs [x [Hin Hx]] Hwin.
  - left. reflexivity.
  - destruct (Z.leb_spec (fst a) t0) as [Ha|Ha].
    + assert (Hrest : exists y, In y l /\ (t0 < fst y)%Z).
      { destruct Hin as [<-|Hin]; [lia | eauto]. }
      destruct l as [|b l]; [destruct Hrest as [? [[] _]]|].
      cbn [map spaced] in Hs. destruct Hs as [Hab Hs].
      right. rewrite !(arrived_cons _ a).
      destruct (Z.leb_spec (fst a) t0); [|lia].
      destruct (Z.leb_spec (fst a) t1); [|lia].
      cbn [List.length]. apply -> Nat.succ_lt_mono.
      destruct (Z.leb_spec (fst b) t0) as [Hb|Hb].
      * destruct (IH t0 t1 Hs Hrest Hwin) as [Hnone|Hlt]; [|exact Hlt].
        rewrite arrived_cons in Hnone.
        destruct (Z.leb_spec (fst b) t0); [discriminate | lia].
      * rewrite (arrived_before_first T l b t0 Hs Hb).
        rewrite arrived_cons.
        destruct (Z.leb_spec (fst b) t1); [cbn; lia | lia].
    + left. rewrite (arrived_before_first T l a t0 Hs Ha). reflexivity.
Qed.

Lemma renders_sampling cfg S0 S1 : renders (sampling cfg S0 S1) = 0.
Proof. unfold sampling. destruct (Nat.eqb S0 0); reflexivity. Qed.

(** C2.  Let the listener flush its appends at instants that are in order
    and less than the inactivity window apart.  A monitor pass whose first
    sample is taken while an append is still to come, and whose second
    sample is taken a full window later or more, starts no render, and it
    observes [S1 > S0] or [S0 = S1 = 0]. *)
Theorem no_completion_while_appending v cfg (renv : RenderEnv)
    (l : arrivals) (t0 t1 : Z) :
  spaced (1000 * TIMEOUT_S cfg) (map fst l) ->
  (exists a, In a l /\ (t0 < fst a)%Z) ->
  (t0 + 1000 * TIMEOUT_S cfg <= t1)%Z ->
  let S0 := getSize (buffer_at t0 l) in
  let S1 := getSize (buffer_at t1 l) in
  let w := with_disk listener_opened (buffer_at t0 l) in
  let env := {| during_sleep := fun _ => buffer_at t1 l; render_env := renv |} in
  renders (events (timerCycle v cfg env w)) = 0 /\
  (S0 < S1 \/ (S0 = 0 /\ S1 = 0)).
Proof.
  intros Hs Hgo Hwin S0 S1 w env.
  assert (Hobs : S0 < S1 \/ (S0 = 0 /\ S1 = 0)).
  { unfold S0, S1, getSize. rewrite !buffer_at_arrived.
    destruct (spaced_growth _ l t0 t1 Hs Hgo Hwin) as [H0|Hlt]; [|auto].
    destruct (List.length (arrived t1 l)) eqn:E1; [auto | left; lia]. }
  split; [|exact Hobs].
  rewrite (timerCycle_running v cfg env w (buffer_at t0 l) eq_refl eq_refl).
  cbv zeta. cbn [during_sleep env]. fold S0 S1.
  destruct (Nat.eqb_spec S1 0) as [E1|E1].
  - apply renders_sampling.
  - destruct (Nat.eqb_spec S1 S0) as [E10|E10]; [lia|].
    cbn [events snd]. rewrite !renders_app, renders_sampling.
    destruct (Nat.eqb S0 0); reflexivity.
Qed.

Lemma no_completion_while_appending_witness :
  let cfg := default_config "/home/u" in
  let w := with_disk listener_opened (buffer_at 100 three_appends) in
  let env := {| during_sleep := fun _ => buffer_at 2100 three_appends;
                render_env := render_ok |} in
  renders (events (timerCycle Terminal cfg env w)) = 0 /\
  (getSize (buffer_at 100 three_appends) < getSize (buffer_at 2100 three_appends)
   \/ (getSize (buffer_at 100 three_appends) = 0
       /\ getSize (buffer_at 2100 three_appends) = 0)).
Proof.
  apply (no_completion_while_appending Terminal (default_config "/home/u")
           render_ok three_appends 100 2100).
  - cbn. lia.
  - exists (1500%Z, "b"%char). cbn. split; [auto | lia].
  - cbn. lia.
Defined.

(** ** The renderer *)

Ltac render_cases v cfg r :=
  unfold renderFile, preview, check_output_catching, run_catching, when,
    printConsole;
  destruct v;
  destruct (converter r) as [c1|]; try destruct (Z.eqb c1 0);
  destruct (phosphor r) as [c2|];
  destruct (viewer r) as [c3|]; try destruct (Z.eqb c3 0);
  destruct (image r);
  destruct (String.eqb (CONV_FORMAT cfg) "png");
  destruct (String.eqb (CONV_FORMAT cfg) "pdf");
  destruct (PNG_PHOSPHOR cfg); destruct (PREVIEW cfg);
  destruct (PREVIEW_NATIVE cfg).

(** Rendering touches neither the buffer nor the gate. *)
Lemma renderFile_world v cfg r w : world (renderFile v cfg r w) = w.
Proof. render_cases v cfg r; reflexivity. Qed.

(** Every render starts the converter exactly once. *)
Lemma renderFile_renders v cfg r w : renders (events (renderFile v cfg r w)) = 1.
Proof. render_cases v cfg r; reflexivity. Qed.

(** A render returns whenever converter and viewer come back with an exit
    status, whatever the status, and the native preview opens its image. *)
Lemma renderFile_returns v cfg r w :
  comes_back r -> result (renderFile v cfg r w) = Ok tt.
Proof.
  intros [[c1 Hc] [[c3 Hv] Hi]]. unfold renderFile, preview,
    check_output_catching, run_catching, when, printConsole, open_image.
  rewrite Hc, Hv, Hi.
  destruct v; destruct (Z.eqb c1 0); destruct (Z.eqb c3 0);
  destruct (phosphor r);
  destruct (String.eqb (CONV_FORMAT cfg) "png");
  destruct (String.eqb (CONV_FORMAT cfg) "pdf");
  destruct (PNG_PHOSPHOR cfg); destruct (PREVIEW cfg);
  destruct (PREVIEW_NATIVE cfg); reflexivity.
Qed.

(** ** Clearing the buffer *)

Lemma clearBuffer_keep cfg w :
  KEEP_BUFFER cfg = true -> clearBuffer cfg w = (Ok tt, w, []).
Proof. intros H. unfold clearBuffer. rewrite H. reflexivity. Qed.

Lemma clearBuffer_default cfg w content :
  KEEP_BUFFER cfg = false -> disk w = Some content ->
  clearBuffer cfg w =
    if Nat.eqb (getSize content) 0 then (Ok tt, w, [])
    else (Ok tt, with_disk w [], [Truncated; Console "Cleared buffer on disk"]).
Proof.
  intros Hk Hd. unfold clearBuffer. rewrite Hk.
  unfold bind at 1, open_rb, bind at 1, get_disk. rewrite Hd. cbn [ret].
  destruct (Nat.eqb (getSize content) 0); reflexivity.
Qed.

Lemma with_disk_same w content : disk w = Some content -> with_disk w content = w.
Proof. destruct w; cbn; intros ->; reflexivity. Qed.

Lemma renders_skip e t : is_render e = false -> renders (e :: t) = renders t.
Proof. intros H. unfold renders. cbn [filter]. rewrite H. reflexivity. Qed.

(** ** Silence after a job (C3) *)

Lemma timerRun_idle v cfg envs : forall w,
  paused w = false -> disk w = Some [] -> Forall quiet_env envs ->
  timerRun v cfg envs w =
    (Ok tt, w, List.concat (map (fun _ => idle_pass cfg) envs)).
Proof.
  induction envs as [|e rest IH]; intros w Hp Hd Hq; [reflexivity|].
  inversion Hq as [|? ? He Hrest]; subst.
  cbn [timerRun]. rewrite bind_unfold.
  rewrite (timerCycle_running v cfg e w [] Hp Hd). cbv zeta.
  rewrite He. cbn [getSize List.length Nat.eqb result world events fst snd].
  rewrite (with_disk_same w [] Hd), (IH w Hp Hd Hrest). reflexivity.
Qed.

Lemma renders_idle cfg (envs : list CycleEnv) :
  renders (List.concat (map (fun _ => idle_pass cfg) envs)) = 0.
Proof.
  induction envs as [|e rest IH]; [reflexivity|].
  cbn [map List.concat]. rewrite renders_app, IH. reflexivity.
Qed.

(** The pass that finds a silent, non-empty buffer: it renders once and,
    when the render returns, truncates the file. *)
Lemma timerCycle_completes v cfg e w content :
  KEEP_BUFFER cfg = false -> paused w = false -> disk w = Some content ->
  content <> [] -> quiet_env e ->
  let r := timerCycle v cfg e w in
  renders (events r) = 1 /\
  (result (renderFile v cfg (render_env e) w) = Ok tt ->
   result r = Ok tt /\ world r = with_disk w []).
Proof.
  intros Hk Hp Hd Hne He r. unfold r.
  rewrite (timerCycle_running v cfg e w content Hp Hd). cbv zeta.
  rewrite He, (with_disk_same w content Hd).
  assert (Hsz : Nat.eqb (getSize content) 0 = false).
  { destruct content; [contradiction | reflexivity]. }
  rewrite Hsz, Nat.eqb_refl, bind_unfold.
  pose proof (renderFile_world v cfg (render_env e) w) as Hw.
  pose proof (renderFile_renders v cfg (render_env e) w) as Hr.
  destruct (renderFile v cfg (render_env e) w) as [[[[]|x|c] w'] t];
    cbn [result world events fst snd] in *; subst w'.
  - rewrite (clearBuffer_default cfg w content Hk Hd), Hsz.
    cbn [result world events fst snd].
    rewrite renders_app, renders_sampling, renders_skip by reflexivity.
    rewrite renders_app, Hr. auto.
  - rewrite renders_app, renders_sampling, renders_skip, Hr by reflexivity.
    split; [reflexivity | discriminate].
  - rewrite renders_app, renders_sampling, renders_skip, Hr by reflexivity.
    split; [reflexivity | discriminate].
Qed.

(** A silent pass in keep-buffer mode: it renders and leaves everything as
    it was. *)
Lemma timerCycle_keeps v cfg e w content :
  KEEP_BUFFER cfg = true -> paused w = false -> disk w = Some content ->
  content <> [] -> quiet_env e -> comes_back (render_env e) ->
  let r := timerCycle v cfg e w in
  result r = Ok tt /\ world r = w /\ renders (events r) = 1.
Proof.
  intros Hk Hp Hd Hne He Hback r. unfold r.
  rewrite (timerCycle_running v cfg e w content Hp Hd). cbv zeta.
  rewrite He, (with_disk_same w content Hd).
  assert (Hsz : Nat.eqb (getSize content) 0 = false).
  { destruct content; [contradiction | reflexivity]. }
  rewrite Hsz, Nat.eqb_refl, bind_unfold.
  pose proof (renderFile_world v cfg (render_env e) w) as Hw.
  pose proof (renderFile_renders v cfg (render_env e) w) as Hr.
  pose proof (renderFile_returns v cfg (render_env e) w Hback) as Hok.
  rewrite Hok, Hw, (clearBuffer_keep cfg w Hk).
  cbn [result world events fst snd]. rewrite app_nil_r.
  rewrite renders_app, renders_sampling, renders_skip, Hr by reflexivity.
  auto.
Qed.

Lemma timerRun_keeps v cfg envs : forall w content,
  KEEP_BUFFER cfg = true -> paused w = false -> disk w = Some content ->
  content <> [] -> Forall quiet_env envs ->
  Forall (fun e => comes_back (render_env e)) envs ->
  let r := timerRun v cfg envs w in
  result r = Ok tt /\ world r = w /\ renders (events r) = List.length envs.
Proof.
  induction envs as [|e rest IH]; intros w content Hk Hp Hd Hne Hq Hb.
  - repeat split.
  - inversion Hq as [|? ? He Hrest]; subst.
    inversion Hb as [|? ? Hbe Hbrest]; subst.
    destruct (timerCycle_keeps v cfg e w content Hk Hp Hd Hne He Hbe)
      as [Hok [Hw Hone]].
    cbn [timerRun]. cbv zeta. rewrite bind_unfold, Hok, Hw.
    destruct (IH w content Hk Hp Hd Hne Hrest Hbrest) as [Hok' [Hw' Hn]].
    cbn [result world events fst snd List.length].
    rewrite renders_app, Hone, Hn. auto.
Qed.

(** C3, as the code has it.  Once the buffer is non-empty and stays
    untouched, what the monitor passes that follow do depends on the
    keep-buffer mode.  With the mode off they start exactly one render,
    however many they are; when that render comes back, the file is
    truncated and every later pass is an idle one: it samples 0, prints
    the waiting line, sleeps and samples 0 again.  With the mode on
    nothing is truncated, and as long as the renders come back every
    silent pass renders the same buffer again: as many renders as
    passes. *)
Theorem one_completion_per_silence v cfg e rest w content :
  paused w = false ->
  disk w = Some content ->
  content <> [] ->
  Forall quiet_env (e :: rest) ->
  let r := timerRun v cfg (e :: rest) w in
  (KEEP_BUFFER cfg = false ->
     renders (events r) = 1 /\
     (comes_back (render_env e) ->
        result r = Ok tt /\
        disk (world r) = Some [] /\
        events r = (events (timerCycle v cfg e w)
                    ++ List.concat (map (fun _ => idle_pass cfg) rest))%list)) /\
  (KEEP_BUFFER cfg = true ->
     Forall (fun e' => comes_back (render_env e')) (e :: rest) ->
     result r = Ok tt /\ world r = w /\
     renders (events r) = List.length (e :: rest)).
Proof.
  intros Hp Hd Hne Hq r. split; intros Hk;
    [|intros Hb; exact (timerRun_keeps v cfg (e :: rest) w content
                          Hk Hp Hd Hne Hq Hb)].
  unfold r.
  inversion Hq as [|? ? He Hrest]; subst.
  destruct (timerCycle_completes v cfg e w content Hk Hp Hd Hne He)
    as [Hone Hret].
  cbn [timerRun]. rewrite bind_unfold.
  destruct (result (timerCycle v cfg e w)) as [[]|x|c] eqn:Eres.
  - assert (Hidle : forall w', paused w' = false -> disk w' = Some [] ->
              timerRun v cfg rest w'
              = (Ok tt, w', List.concat (map (fun _ => idle_pass cfg) rest)))
      by (intros; apply timerRun_idle; assumption).
    split.
    + cbn [events snd]. rewrite renders_app, Hone.
      destruct (result (renderFile v cfg (render_env e) w)) as [[]|x|c] eqn:Er.
      * destruct (Hret eq_refl) as [_ Hw]. rewrite Hw.
        rewrite Hidle by (destruct w; auto).
        cbn [events snd]. rewrite renders_idle. reflexivity.
      * exfalso. revert Eres.
        rewrite (timerCycle_running v cfg e w content Hp Hd). cbv zeta.
        rewrite He, (with_disk_same w content Hd), Nat.eqb_refl, bind_unfold, Er.
        destruct content; [contradiction | discriminate].
      * exfalso. revert Eres.
        rewrite (timerCycle_running v cfg e w content Hp Hd). cbv zeta.
        rewrite He, (with_disk_same w content Hd), Nat.eqb_refl, bind_unfold, Er.
        destruct content; [contradiction | discriminate].
    + intros Hback.
      destruct (Hret (renderFile_returns v cfg _ w Hback)) as [_ Hw].
      rewrite Hw. rewrite Hidle by (destruct w; auto).
      cbn [result world events fst snd with_disk disk]. auto.
  - split; [exact Hone|]. intros Hback.
    destruct (Hret (renderFile_returns v cfg _ w Hback)); discriminate.
  - split; [exact Hone|]. intros Hback.
    destruct (Hret (renderFile_returns v cfg _ w Hback)); discriminate.
Qed.

Lemma comes_back_render_ok : comes_back render_ok.
Proof. repeat split; eexists; reflexivity. Qed.

Lemma one_completion_per_silence_witness :
  let cfg := default_config "/home/u" in
  let r := timerRun Terminal cfg [quiet_pass; quiet_pass; quiet_pass]
             (init_world (Some ["a"%char])) in
  let r' := timerRun Terminal (with_keep cfg true)
              [quiet_pass; quiet_pass; quiet_pass]
              (init_world (Some ["a"%char])) in
  (renders (events r) = 1 /\ result r = Ok tt /\ disk (world r) = Some []) /\
  (renders (events r') = 3 /\ disk (world r') = Some ["a"%char]).
Proof.
  intros cfg r r'.
  assert (Hq : Forall quiet_env [quiet_pass; quiet_pass; quiet_pass])
    by (repeat constructor).
  assert (Hne : ["a"%char] <> []) by discriminate.
  split.
  - destruct (one_completion_per_silence Terminal cfg quiet_pass
                [quiet_pass; quiet_pass] (init_world (Some ["a"%char]))
                ["a"%char] eq_refl eq_refl Hne Hq) as [Hoff _].
    destruct (Hoff eq_refl) as [Hone Hrest].
    destruct (Hrest comes_back_render_ok) as [Hok [Hd _]].
    repeat split; assumption.
  - destruct (one_completion_per_silence Terminal (with_keep cfg true)
                quiet_pass [quiet_pass; quiet_pass]
                (init_world (Some ["a"%char]))
                ["a"%char] eq_refl eq_refl Hne Hq) as [_ Hon].
    destruct (Hon eq_refl) as [_ [Hw Hn]].
    + repeat constructor; apply comes_back_render_ok.
    + split; [exact Hn|]. unfold r'. rewrite Hw. reflexivity.
Defined.

(** C3 as stated fails in keep-buffer mode: the file is never truncated, so
    the next silent pass finds the same non-empty size twice and renders
    the same job again. *)
Lemma keep_buffer_renders_again :
  let cfg := with_keep (default_config "/home/u") true in
  let r := timerRun Terminal cfg [quiet_pass; quiet_pass]
             (init_world (Some ["a"%char])) in
  renders (events r) = 2 /\ renders (events r) <> 1 /\
  disk (world r) = Some ["a"%char].
Proof. cbv zeta. repeat split. vm_compute. discriminate. Qed.

(** ** A failing converter (C4) *)




(** ** Pause and resume (C5, C6) *)

Lemma pause_runs cfg w :
  pause cfg w =
    (Ok tt, with_paused w true, [Console "'P' received, aborting capture..."]).
Proof. reflexivity. Qed.

Lemma resume_runs cfg w :
  resume cfg w =
    match clearBuffer cfg w with
    | (Ok _, w', t) =>
        (Ok tt, with_paused w' false,
         Console "'R' received, resuming serial capture..." :: t)
    | (Raise x, w', t) =>
        (Raise x, w', Console "'R' received, resuming serial capture..." :: t)
    | (Exit c, w', t) =>
        (Exit c, w', Console "'R' received, resuming serial capture..." :: t)
    end.
Proof.
  unfold resume, handleKey.
  change (Ascii.eqb (lower "r") "q") with false.
  change (Ascii.eqb (lower "r") "p") with false.
  change (Ascii.eqb (lower "r") "r") with true.
  change (Ascii.eqb (lower "r") "i") with false.
  change (Ascii.eqb (lower "r") "h") with false.
  cbn [when]. unfold printConsole, emit, set_paused, ret.
  destruct (clearBuffer cfg w) as [[[[]|x|c] w'] t] eqn:E;
    unfold bind; rewrite E; cbn; rewrite ?app_nil_r; reflexivity.
Qed.





Lemma handleKey_resume cfg k : is_resume_key k = true -> handleKey cfg k = resume cfg.
Proof.
  unfold is_resume_key. intros H. apply Ascii.eqb_eq in H.
  unfold resume, handleKey. rewrite H. reflexivity.
Qed.









(** ** The two threads, statement by statement (C7) *)

(** The statement model agrees with the pass-level one: four listener
    statements are [listenStep] ... *)
Lemma listener_steps_are_listenStep b rest w mo t :
  paused w = false -> wpending w = [] ->
  let s := {| shared := w; listener := AtTest; monitor := mo;
              line := b :: rest; done := t |} in
  listener_step (listener_step (listener_step (listener_step s)))
    = {| shared := world (listenStep b w); listener := AtTest; monitor := mo;
         line := rest; done := (t ++ events (listenStep b w))%list |}.
Proof.
  intros Hp Hpend s. rewrite (listenStep_running b w Hp).
  unfold s, listener_step at 4. cbn [listener shared monitor line done].
  rewrite Hp. unfold listener_step at 3.
  cbn [listener shared monitor line done].
  unfold listener_step at 2. cbn [listener shared monitor line done].
  unfold listener_step. cbn -[write_at].
  rewrite <- !app_assoc. reflexivity.
Qed.

Lemma monitor_step_falls_asleep v cfg r s content :
  monitor s = AtLoopHead -> paused (shared s) = false ->
  disk (shared s) = Some content ->
  monitor_step v cfg r s =
    {| shared := shared s; listener := listener s;
       monitor := Asleep (getSize content); line := line s;
       done := (done s ++
                Sampled (getSize content) ::
                (if Nat.eqb (getSize content) 0
                 then [Console "Waiting for input."] else []) ++
                [Sleep (1000 * TIMEOUT_S cfg)])%list |}.
Proof.
  intros Hm Hp Hd. unfold monitor_step. rewrite Hm, Hp.
  unfold monitor_moves.
  rewrite bind_unfold, (timerFirst_runs _ content Hd).
  cbn [result world events fst snd].
  rewrite bind_unfold. cbn [emit ret result world events fst snd app].
  rewrite app_nil_r. reflexivity.
Qed.

(** ... and two monitor statements with nothing in between are a
    [timerCycle] through a quiet sleep. *)
Lemma monitor_steps_are_timerCycle v cfg r w content li ln t :
  paused w = false -> disk w = Some content ->
  let s := {| shared := w; listener := li; monitor := AtLoopHead;
              line := ln; done := t |} in
  let pass := timerCycle v cfg {| during_sleep := quiet; render_env := r |} w in
  let s' := monitor_step v cfg r (monitor_step v cfg r s) in
  shared s' = world pass /\ done s' = (t ++ events pass)%list.
Proof.
  intros Hp Hd s pass s'. unfold s', pass.
  rewrite (timerCycle_running v cfg _ w content Hp Hd). cbv zeta.
  cbn [during_sleep render_env]. unfold quiet.
  rewrite (with_disk_same w content Hd).
  rewrite (monitor_step_falls_asleep v cfg r s content eq_refl Hp Hd).
  unfold monitor_step, monitor_moves. cbn [monitor shared done].
  rewrite (timerWake_runs v cfg r _ w content Hd). cbv zeta.
  unfold sampling.
  destruct (Nat.eqb (getSize content) 0) eqn:E0.
  - cbn [world events fst snd]. rewrite <- !app_assoc. auto.
  - rewrite Nat.eqb_refl. cbn [world events fst snd].
    rewrite <- !app_assoc. auto.
Qed.

Lemma clearBuffer_keeps_pending cfg w :
  wpending (world (clearBuffer cfg w)) = wpending w.
Proof.
  unfold clearBuffer, open_rb, get_disk, bind.
  destruct (KEEP_BUFFER cfg); [reflexivity|].
  destruct (disk w) as [content|]; [|reflexivity].
  cbn. destruct (Nat.eqb (getSize content) 0); reflexivity.
Qed.

Lemma timerWake_keeps_pending v cfg r S0 w :
  wpending (world (timerWake v cfg r S0 w)) = wpending w.
Proof.
  destruct (disk w) as [content|] eqn:Hd.
  - rewrite (timerWake_runs v cfg r S0 w content Hd). cbv zeta.
    destruct (Nat.eqb (getSize content) 0); [reflexivity|].
    destruct (Nat.eqb (getSize content) S0); [|reflexivity].
    cbn [world fst snd]. rewrite bind_unfold.
    pose proof (renderFile_world v cfg r w) as Hw.
    destruct (result (renderFile v cfg r w)); cbn [world fst snd];
      rewrite ?Hw; [apply clearBuffer_keeps_pending | reflexivity..].
  - unfold timerWake, sample_again, get_disk, bind. rewrite Hd. reflexivity.
Qed.

Lemma timerFirst_keeps_pending cfg w :
  wpending (world ((size_first_check <- timerFirst ;;
                    emit (Sleep (1000 * TIMEOUT_S cfg)) ;;
                    ret size_first_check) w)) = wpending w.
Proof.
  unfold timerFirst, open_rb, get_disk, bind.
  destruct (disk w) as [content|]; [|reflexivity].
  cbn. destruct (Nat.eqb (getSize content) 0); reflexivity.
Qed.

Lemma listener_step_settled s : settled s -> settled (listener_step s).
Proof.
  unfold settled, listener_step.
  destruct (listener s) eqn:El; cbn; rewrite ?El; auto.
  - intros H. destruct (paused (shared s)); exact H.
  - intros H. destruct (line s); cbn; rewrite ?El; exact H.
Qed.

Lemma monitor_step_settled v cfg r s : settled s -> settled (monitor_step v cfg r s).
Proof.
  unfold settled, monitor_step, monitor_moves.
  destruct (monitor s) as [|S0|]; [| |auto].
  - destruct (paused (shared s)).
    + cbn. auto.
    + cbn [listener shared].
      rewrite timerFirst_keeps_pending.
      destruct (result _); destruct (listener s); auto.
  - cbn [listener shared]. rewrite timerWake_keeps_pending.
    destruct (result _); destruct (listener s); auto.
Qed.

Lemma interleave_settled v cfg r schedule : forall s,
  settled s -> settled (interleave v cfg r schedule s).
Proof.
  induction schedule as [|[|] rest IH]; intros s Hs; cbn [interleave].
  - exact Hs.
  - apply IH, listener_step_settled, Hs.
  - apply IH, monitor_step_settled, Hs.
Qed.

(** X28.  A pass of the listener over a clear gate is
    exactly one read, one write of that byte and one flush, in this order,
    and it leaves nothing in the handle's memory buffer.  Under every
    schedule of the two threads, started with nothing pending, a byte is
    held back from the file only while the listener stands between a read
    and the flush that follows it: whenever it is about to test the gate or
    to read, nothing is pending. *)
Theorem flush_precedes_next_read v cfg r w incoming schedule :
  wpending w = [] ->
  let s := interleave v cfg r schedule (threads_start w incoming) in
  (forall b w', paused w' = false ->
     listenStep b w' = (Ok tt, flushed b w', [SerialRead b; FileWrite b; FileFlush])
     /\ wpending (flushed b w') = []) /\
  (byte_in_flight s = false -> wpending (shared s) = [] \/ listener s = ListenerGone).
Proof.
  intros Hpend s. split.
  - intros b w' Hp. split; [apply listenStep_running, Hp | reflexivity].
  - assert (Hs : settled s) by (apply interleave_settled; exact Hpend).
    unfold settled, byte_in_flight in *.
    destruct (listener s); auto; discriminate.
Qed.

Lemma flush_precedes_next_read_witness :
  let s := interleave Terminal (default_config "/home/u") render_ok
             [MonitorThread; ListenerThread; ListenerThread; ListenerThread;
              ListenerThread; MonitorThread]
             (threads_start (captured ["a"%char]) ["b"%char]) in
  wpending (shared s) = [] \/ listener s = ListenerGone.
Proof.
  intros s.
  apply (flush_precedes_next_read Terminal (default_config "/home/u")
           render_ok (captured ["a"%char]) ["b"%char]
           [MonitorThread; ListenerThread; ListenerThread; ListenerThread;
            ListenerThread; MonitorThread] eq_refl).
  reflexivity.
Defined.

(** C7.  The flush after each byte does not do what the header comment of
    both sources gives it for ("to ensure that the timer thread does not
    prematurely consider the print job to be complete"): no lock orders the
    monitor's second sample after the flush of a byte already read.  The
    monitor samples size 1 and sleeps; the listener tests the gate, reads
    [b] and writes it to [dumpfile]; the monitor wakes, samples size 1
    again and renders, while [b] sits unflushed in the handle's memory
    buffer. *)
Lemma completion_with_byte_in_flight :
  let cfg := default_config "/home/u" in
  let s := interleave Terminal cfg render_ok
             [MonitorThread; ListenerThread; ListenerThread; ListenerThread]
             (threads_start (captured ["a"%char]) ["b"%char]) in
  byte_in_flight s = true /\
  wpending (shared s) = ["b"%char] /\
  disk (shared s) = Some ["a"%char] /\
  renders (done s) = 0 /\
  renders (done (monitor_step Terminal cfg render_ok s)) = 1.
Proof. cbv zeta. repeat split. Qed.

(** ** Startup of the listener (C8, C9, C10) *)

(** C10.  In [pcl_dump.py], with serial capture enabled and the port
    opened, [listenSerial] raises [NameError] on the name [logger] in its
    startup-command block: the port has been opened and nothing else has
    happened.  No command is written, the buffer file is not opened, the
    capture loop is not entered and the shared state is untouched. *)
Theorem listenSerial_terminal_NameError cfg env w :
  SERIAL_IGNORE cfg = false ->
  serial_opens env = true ->
  let r := listenSerial_terminal pcl_dump_globals cfg env w in
  result r = Raise (NameError "logger") /\
  events r = [SerialOpen] /\
  world r = w /\
  existsb is_file_write (events r) = false /\
  existsb is_serial_io (events r) = false.
Proof.
  intros Hi Ho r. unfold r, listenSerial_terminal, open_serial.
  rewrite Hi, Ho. cbn [negb].
  rewrite bind_unfold. cbn [emit result world events fst snd].
  rewrite bind_unfold.
  change (load_global pcl_dump_globals "logger" w)
    with (@raise unit (NameError "logger") w).
  cbn. auto.
Qed.

Lemma listenSerial_terminal_NameError_witness :
  let r := listenSerial_terminal pcl_dump_globals (default_config "/home/u")
             (line_delivers ["a"%char; "b"%char]) (init_world None) in
  result r = Raise (NameError "logger") /\ world r = init_world None.
Proof.
  intros r.
  destruct (listenSerial_terminal_NameError (default_config "/home/u")
              (line_delivers ["a"%char; "b"%char]) (init_world None)
              eq_refl eq_refl) as [Hr [_ [Hw _]]].
  split; [exact Hr | exact Hw].
Defined.

(** An unopenable port is fatal in both variants: three console lines and
    exit status 5, with no further attempt. *)
Lemma serial_failure_is_fatal cfg env w :
  SERIAL_IGNORE cfg = false -> serial_opens env = false ->
  let fatal := [Console (msg_serial_failed cfg env);
                Console "Unable to continue, exiting..."; Console "Goodbye"] in
  listenSerial_terminal pcl_dump_globals cfg env w = (Exit 5, w, fatal) /\
  capture_startup_pro cfg env w = (Exit 5, w, fatal).
Proof.
  intros Hi Ho fatal.
  unfold listenSerial_terminal, capture_startup_pro, SerialListener_init,
    open_serial. rewrite Hi, Ho. split; reflexivity.
Qed.

(** An unopenable buffer file is fatal in the GUI variant. *)
Lemma buffer_failure_is_fatal_pro cfg env w :
  SERIAL_IGNORE cfg = false -> buffer_opens env = false ->
  listenSerial_pro cfg env w =
    (Exit 5, w,
     [Console (msg_buffer_failed cfg env);
      Console "Unable to continue, exiting..."; Console "Goodbye"]).
Proof.
  intros Hi Ho. unfold listenSerial_pro, open_buffer. rewrite Hi, Ho.
  reflexivity.
Qed.

(** C8 at the failing input: the port opens and the buffer file cannot be
    opened for writing.  [listenSerial] of [pcl_dump.py] never reaches its
    [open]: the thread ends with [NameError], nothing is reported and the
    process does not exit.  [listenSerial] of [scope_dump_pro.py] reports
    and exits with status 5 on the same input. *)
Theorem buffer_failure_unreported_terminal :
  let cfg := default_config "/home/u" in
  let w := init_world None in
  let r := listenSerial_terminal pcl_dump_globals cfg buffer_unopenable w in
  result r = Raise (NameError "logger") /\
  events r = [SerialOpen] /\
  result r <> Exit 5 /\
  listenSerial_pro cfg buffer_unopenable w =
    (Exit 5, w,
     [Console (msg_buffer_failed cfg buffer_unopenable);
      Console "Unable to continue, exiting..."; Console "Goodbye"]).
Proof. cbv zeta. repeat split. discriminate. Qed.

Lemma send_startup_pro_runs delay commands w :
  send_startup_pro delay commands w = (Ok tt, w, startup_block_pro delay commands).
Proof.
  induction commands as [|c rest IH]; [reflexivity|].
  cbn [send_startup_pro]. rewrite !bind_unfold. unfold printConsole.
  cbn [emit result world events fst snd]. rewrite IH. reflexivity.
Qed.

Lemma serial_writes_startup_block delay commands :
  serial_writes (startup_block_pro delay commands) = commands.
Proof.
  induction commands as [|c rest IH]; [reflexivity|].
  change (startup_block_pro delay (c :: rest))
    with ([Sleep delay;
           Console ("Sending startup command " ++ strip_crlf c ++ "...");
           SerialWrite c] ++ startup_block_pro delay rest)%list.
  unfold serial_writes in *. rewrite flat_map_app, IH. reflexivity.
Qed.

Lemma no_read_in_startup_block delay commands :
  existsb is_serial_read (startup_block_pro delay commands) = false.
Proof.
  induction commands as [|c rest IH]; [reflexivity|].
  change (startup_block_pro delay (c :: rest))
    with ([Sleep delay;
           Console ("Sending startup command " ++ strip_crlf c ++ "...");
           SerialWrite c] ++ startup_block_pro delay rest)%list.
  rewrite existsb_app, IH. reflexivity.
Qed.

Lemma listenLoop_writes_nothing_to_line fuel : forall bytes w,
  serial_writes (events (listenLoop fuel bytes w)) = [].
Proof.
  induction fuel as [|fuel IH]; intros bytes w; [reflexivity|].
  destruct bytes as [|b rest]; [reflexivity|].
  cbn [listenLoop]. rewrite bind_unfold. unfold is_set.
  cbn [result world events fst snd app]. rewrite bind_unfold.
  destruct (paused w) eqn:Hp.
  - rewrite (listenStep_paused b w Hp). cbn [result world events fst snd app].
    apply IH.
  - rewrite (listenStep_running b w Hp). cbn [result world events fst snd].
    unfold serial_writes. rewrite flat_map_app. cbn [flat_map app].
    apply IH.
Qed.

(** C9, as the code has it, for [scope_dump_pro.py] with capture enabled
    and both port and buffer file opening: everything the program does up
    to the capture loop is, in this order, opening the port, then for each
    startup command the inter-command delay, a console line and the write
    of the command, then the opening of the buffer file.  The commands are
    written in their configured order, each preceded by the delay, and no
    byte is read before the last of them is written. *)
Theorem startup_commands_pro cfg env w :
  SERIAL_IGNORE cfg = false ->
  serial_opens env = true ->
  buffer_opens env = true ->
  let r := capture_startup_pro cfg env w in
  let block := startup_block_pro (COMMANDS_DELAY cfg) (COMMANDS_STARTUP cfg) in
  let loop := listenLoop (passes env) (incoming env) (world (open_wb w)) in
  events r =
    ([SerialOpen; Console "Executing any startup commands..."] ++ block ++
     [Console "Starting timer thread...";
      Console "Starting keyboard input thread...";
      Console "Starting serial listener thread..."; OpenedForWrite] ++
     events loop)%list /\
  serial_writes block = COMMANDS_STARTUP cfg /\
  existsb is_serial_read block = false /\
  serial_writes (events loop) = [].
Proof.
  intros Hi Hs Hb r block loop. split; [|split; [|split]].
  - unfold r, capture_startup_pro, SerialListener_init, listenSerial_pro,
      open_serial, open_buffer. rewrite Hi, Hs, Hb. cbn [negb when].
    unfold printConsole.
    repeat (first [rewrite send_startup_pro_runs | rewrite bind_unfold];
            cbn [emit open_wb result world events fst snd]).
    fold block. change (world (open_wb w)) with
      {| disk := Some []; paused := paused w; wpos := 0; wpending := [] |}
      in loop.
    fold loop. destruct (result loop); reflexivity.
  - apply serial_writes_startup_block.
  - apply no_read_in_startup_block.
  - apply listenLoop_writes_nothing_to_line.
Qed.

Lemma startup_commands_pro_witness :
  let cfg := default_config "/home/u" in
  serial_writes (startup_block_pro (COMMANDS_DELAY cfg) (COMMANDS_STARTUP cfg))
    = ["++srqauto 1" ++ CRLF; "++read" ++ CRLF; "++read" ++ CRLF] /\
  existsb is_serial_read
    (startup_block_pro (COMMANDS_DELAY cfg) (COMMANDS_STARTUP cfg)) = false.
Proof.
  intros cfg.
  destruct (startup_commands_pro cfg (line_delivers ["a"%char])
              (init_world None) eq_refl eq_refl eq_refl)
    as [_ [Hw [Hr _]]].
  split; [exact Hw | exact Hr].
Defined.

(** C9 as stated fails in [scope_dump_pro.py]: the delay comes before each
    write, so the last command is followed by the opening of the buffer
    file and the first read, with no delay in between. *)
Lemma last_command_not_followed_by_delay :
  let cfg := default_config "/home/u" in
  let r := capture_startup_pro cfg (line_delivers ["a"%char]) (init_world None) in
  writes_followed_by_delay (COMMANDS_DELAY cfg) (events r) = false /\
  skipn 9 (events r) =
    [Console "Sending startup command ++read...";
     SerialWrite ("++read" ++ CRLF);
     Console "Starting timer thread...";
     Console "Starting keyboard input thread...";
     Console "Starting serial listener thread...";
     OpenedForWrite;
     SerialRead "a"; FileWrite "a"; FileFlush].
Proof. cbv zeta. split; vm_compute; reflexivity. Qed.

(** The startup block of [pcl_dump.py] is written the way C9 puts it, each
    write directly followed by the delay: it would run so, were [logger]
    bound at module level. *)
Remark terminal_block_as_written :
  let cfg := default_config "/home/u" in
  let r := listenSerial_terminal ("logger" :: pcl_dump_globals) cfg
             (line_delivers ["a"%char]) (init_world None) in
  result r = Ok tt /\
  writes_followed_by_delay (COMMANDS_DELAY cfg) (events r) = true /\
  serial_writes (events r) = COMMANDS_STARTUP cfg.
Proof. cbv zeta. repeat split. Qed.

(** * Further properties of the code *)

(** ** The monitor beyond the claims *)

Lemma timerCycle_paused v cfg env w :
  paused w = true -> timerCycle v cfg env w = (Ok tt, w, paused_pass).
Proof.
  intros Hp. unfold timerCycle. rewrite bind_unfold. unfold is_set.
  cbn [result world events fst snd]. rewrite Hp. reflexivity.
Qed.

Lemma clearBuffer_renders_nothing cfg w :
  renders (events (clearBuffer cfg w)) = 0.
Proof.
  unfold clearBuffer, open_rb, get_disk, bind.
  destruct (KEEP_BUFFER cfg); [reflexivity|].
  destruct (disk w) as [content|]; [|reflexivity].
  cbn. destruct (Nat.eqb (getSize content) 0); reflexivity.
Qed.

(** The wake-up half of a pass does not look at the gate. *)
Lemma timerWake_renders v cfg r w content :
  disk w = Some content -> content <> [] ->
  let h := timerWake v cfg r (getSize content) w in
  existsb is_sample (events h) = true /\ renders (events h) = 1.
Proof.
  intros Hd Hne h. unfold h.
  assert (Hsz : Nat.eqb (getSize content) 0 = false)
    by (destruct content; [contradiction | reflexivity]).
  rewrite (timerWake_runs v cfg r (getSize content) w content Hd). cbv zeta.
  rewrite Hsz, Nat.eqb_refl. cbn [events snd existsb is_sample orb].
  split; [reflexivity|].
  rewrite !renders_skip by reflexivity. rewrite bind_unfold.
  pose proof (renderFile_renders v cfg r w) as Hr.
  destruct (result (renderFile v cfg r w)); cbn [events snd];
    [|exact Hr..].
  rewrite renders_app, Hr, clearBuffer_renders_nothing. reflexivity.
Qed.

(** X1.  The monitor tests the gate once per pass, at the head of its loop.
    A pass that finds the gate set does not look at the buffer at all: it
    only sleeps 200 ms and prints the paused line.  So in a run of passes
    during which the gate stays set no size is sampled, nothing is rendered
    or truncated, the shared state is untouched, and the passes return even
    when the buffer file does not exist.  A pass that was already in its
    [time.sleep(TIMEOUT_S)] when the gate got set is not held back: at its
    wake-up it takes its second sample without testing the gate, and
    renders a non-empty buffer that has not grown. *)
Theorem timerRun_while_paused v cfg envs w :
  paused w = true ->
  let r := timerRun v cfg envs w in
  r = (Ok tt, w, List.concat (map (fun _ => paused_pass) envs)) /\
  existsb is_sample (events r) = false /\
  renders (events r) = 0 /\ truncations (events r) = 0 /\
  (forall renv content l ln,
     disk w = Some content -> content <> [] ->
     let s := {| shared := w; listener := l;
                 monitor := Asleep (getSize content); line := ln;
                 done := [] |} in
     existsb is_sample (done (monitor_step v cfg renv s)) = true /\
     renders (done (monitor_step v cfg renv s)) = 1).
Proof.
  intros Hp r.
  assert (Hr : r = (Ok tt, w, List.concat (map (fun _ => paused_pass) envs))).
  { unfold r. induction envs as [|e rest IH]; [reflexivity|].
    cbn [timerRun]. rewrite bind_unfold, (timerCycle_paused v cfg e w Hp).
    cbn [result world events fst snd]. rewrite IH. reflexivity. }
  split; [exact Hr|]. rewrite Hr. cbn [events snd].
  assert (Hpasses :
    existsb is_sample (List.concat (map (fun _ => paused_pass) envs)) = false /\
    renders (List.concat (map (fun _ => paused_pass) envs)) = 0 /\
    truncations (List.concat (map (fun _ => paused_pass) envs)) = 0).
  { clear Hr r. induction envs as [|e rest IH]; [repeat split|].
    cbn [map List.concat]. destruct IH as [Hs [Hn Ht]].
    unfold renders, truncations in *.
    rewrite existsb_app, !filter_app, !length_app, Hs, Hn, Ht. repeat split. }
  destruct Hpasses as [Hs [Hn Ht]].
  split; [exact Hs|]. split; [exact Hn|]. split; [exact Ht|].
  intros renv content l ln Hd Hne. cbv zeta.
  unfold monitor_step, monitor_moves.
  cbn [monitor shared done]. rewrite app_nil_l.
  apply (timerWake_renders v cfg renv w content Hd Hne).
Qed.

Lemma timerRun_while_paused_witness :
  let w := with_paused (captured ["a"%char]) true in
  timerRun Terminal (default_config "/home/u") [quiet_pass; quiet_pass] w
    = (Ok tt, w, (paused_pass ++ paused_pass)%list) /\
  renders (done (monitor_step Terminal (default_config "/home/u") render_ok
                   {| shared := w; listener := AtTest; monitor := Asleep 1;
                      line := []; done := [] |})) = 1.
Proof.
  intros w.
  destruct (timerRun_while_paused Terminal (default_config "/home/u")
              [quiet_pass; quiet_pass] w eq_refl) as [Hr [_ [_ [_ Hw]]]].
  split; [exact Hr|].
  destruct (Hw render_ok ["a"%char] AtTest []) as [_ Hn];
    [reflexivity | discriminate | exact Hn].
Defined.

(** X2.  With the gate clear and no buffer file, the first pass fails in
    [open(BUFFER_FILE, 'rb')]: the monitor loop ends with
    [FileNotFoundError] before it has sampled, slept or printed anything,
    and no later pass is made. *)
Theorem timerRun_without_buffer_file v cfg e rest w :
  paused w = false ->
  disk w = None ->
  timerRun v cfg (e :: rest) w = (Raise FileNotFoundError, w, []).
Proof.
  intros Hp Hd. cbn [timerRun]. rewrite bind_unfold.
  unfold timerCycle. rewrite bind_unfold. unfold is_set.
  cbn [result world events fst snd]. rewrite Hp. cbn [negb].
  rewrite bind_unfold. unfold timerFirst. rewrite bind_unfold.
  unfold open_rb. rewrite bind_unfold. unfold get_disk.
  cbn [result world events fst snd]. rewrite Hd. reflexivity.
Qed.

Lemma timerRun_without_buffer_file_witness :
  timerRun Terminal (default_config "/home/u") [quiet_pass; quiet_pass]
    (init_world None)
  = (Raise FileNotFoundError, init_world None, []).
Proof.
  apply (timerRun_without_buffer_file Terminal (default_config "/home/u")
           quiet_pass [quiet_pass] (init_world None)); reflexivity.
Defined.

Lemma same_gate_and_handle_refl w : same_gate_and_handle w w.
Proof. repeat split. Qed.

Lemma same_gate_and_handle_trans w1 w2 w3 :
  same_gate_and_handle w1 w2 -> same_gate_and_handle w2 w3 ->
  same_gate_and_handle w1 w3.
Proof.
  unfold same_gate_and_handle. intros [A [B C]] [D [E F]].
  repeat split; congruence.
Qed.

Lemma clearBuffer_frame cfg w :
  same_gate_and_handle w (world (clearBuffer cfg w)).
Proof.
  unfold clearBuffer, open_rb, get_disk, bind.
  destruct (KEEP_BUFFER cfg); [apply same_gate_and_handle_refl|].
  destruct (disk w) as [content|]; [|apply same_gate_and_handle_refl].
  cbn. destruct (Nat.eqb (getSize content) 0); repeat split.
Qed.

Lemma timerCycle_frame v cfg env w :
  same_gate_and_handle w (world (timerCycle v cfg env w)).
Proof.
  destruct (paused w) eqn:Hp.
  - rewrite (timerCycle_paused v cfg env w Hp). apply same_gate_and_handle_refl.
  - destruct (disk w) as [content|] eqn:Hd.
    + rewrite (timerCycle_running v cfg env w content Hp Hd). cbv zeta.
      destruct (Nat.eqb _ 0); [repeat split|].
      destruct (Nat.eqb _ _); [|repeat split].
      cbn [world fst snd]. rewrite bind_unfold.
      pose proof (renderFile_world v cfg (render_env env)
                    (with_disk w (during_sleep env content))) as Hw.
      destruct (result (renderFile _ _ _ _)); cbn [world fst snd];
        rewrite ?Hw; [|repeat split..].
      apply (same_gate_and_handle_trans _ (with_disk w (during_sleep env content)));
        [repeat split | apply clearBuffer_frame].
    + unfold timerCycle. rewrite bind_unfold. unfold is_set.
      cbn [result world events fst snd]. rewrite Hp. cbn [negb].
      rewrite bind_unfold. unfold timerFirst. rewrite bind_unfold.
      unfold open_rb. rewrite bind_unfold. unfold get_disk.
      cbn [result world events fst snd]. rewrite Hd.
      apply same_gate_and_handle_refl.
Qed.

(** X3.  The monitor never pauses or resumes capture and never touches the
    listener's write handle: whatever the passes find and however they end
    (return or exception), the gate, the handle's offset and its pending
    bytes are as they were. *)
Theorem timerRun_keeps_gate_and_handle v cfg envs : forall w,
  same_gate_and_handle w (world (timerRun v cfg envs w)).
Proof.
  induction envs as [|e rest IH]; intros w.
  - apply same_gate_and_handle_refl.
  - cbn [timerRun]. rewrite bind_unfold.
    pose proof (timerCycle_frame v cfg e w) as Hc.
    destruct (result (timerCycle v cfg e w)); cbn [world fst snd];
      [|exact Hc..].
    apply (same_gate_and_handle_trans _ _ _ Hc), IH.
Qed.







Lemma renderFile_unspawnable v cfg r w err :
  converter r = ProcOSError err ->
  renderFile v cfg r w =
    (Raise OSError, w,
     (match v with Pro => [LastCapture (now_label r)] | Terminal => [] end
      ++ [RunConverter (render_command cfg r)])%list).
Proof.
  intros Hc. unfold renderFile, check_output_catching. rewrite Hc.
  destruct v; reflexivity.
Qed.

(** X5.  An [OSError] from the converter's spawn is not caught
    ([renderFile] only handles [CalledProcessError]).  The pass that found
    a silent non-empty buffer ends with that exception right after starting
    the converter: no error line, no phosphor step, no preview, and the
    buffer is not cleared, in default mode either.  The GUI variant has by
    then set its last-capture label, to the time written with a space
    between date and time.  The monitor loop ends there; no later pass is
    made. *)
Theorem spawn_failure_ends_monitor v cfg e rest w content err :
  paused w = false ->
  disk w = Some content ->
  content <> [] ->
  quiet_env e ->
  converter (render_env e) = ProcOSError err ->
  timerRun v cfg (e :: rest) w =
    (Raise OSError, w,
     (sampling cfg (getSize content) (getSize content) ++
      Console "Job complete, rendering..." ::
      match v with Pro => [LastCapture (now_label (render_env e))] | Terminal => [] end
      ++ [RunConverter (render_command cfg (render_env e))])%list).
Proof.
  intros Hp Hd Hne Hq Hc.
  cbn [timerRun]. rewrite bind_unfold.
  rewrite (timerCycle_running v cfg e w content Hp Hd). cbv zeta.
  rewrite Hq, (with_disk_same w content Hd), Nat.eqb_refl.
  assert (Hsz : Nat.eqb (getSize content) 0 = false)
    by (destruct content; [contradiction | reflexivity]).
  rewrite Hsz, bind_unfold, (renderFile_unspawnable v cfg _ w err Hc).
  reflexivity.
Qed.

Lemma spawn_failure_ends_monitor_witness :
  let e := {| during_sleep := quiet; render_env := render_unspawnable |} in
  let r := timerRun Pro (default_config "/home/u") [e; quiet_pass]
             (init_world (Some ["a"%char])) in
  result r = Raise OSError /\ disk (world r) = Some ["a"%char] /\
  In (LastCapture "2024-01-01 00:00:00") (events r).
Proof.
  intros e r. unfold r.
  rewrite (spawn_failure_ends_monitor Pro (default_config "/home/u") e
             [quiet_pass] (init_world (Some ["a"%char])) ["a"%char]
             "[Errno 12] Cannot allocate memory").
  - repeat split. cbn. auto 10.
  - reflexivity.
  - reflexivity.
  - discriminate.
  - intros content. reflexivity.
  - reflexivity.
Defined.

(** X6.  The phosphor step can never stop a render.  Its exit status is
    not looked at: after any status the render goes on exactly as after
    status 0, without a message.  When it cannot be spawned, the only
    difference is the error line: the outcome of the render and the state
    it leaves are the same, and the preview still follows. *)
Theorem phosphor_never_stops_render v cfg r w code err :
  renderFile v cfg (with_phosphor r (ProcExit code)) w
    = renderFile v cfg (with_phosphor r (ProcExit 0)) w /\
  result (renderFile v cfg (with_phosphor r (ProcOSError err)) w)
    = result (renderFile v cfg (with_phosphor r (ProcExit 0)) w) /\
  world (renderFile v cfg (with_phosphor r (ProcOSError err)) w)
    = world (renderFile v cfg (with_phosphor r (ProcExit 0)) w) /\
  process_kinds (events (renderFile v cfg (with_phosphor r (ProcOSError err)) w))
    = process_kinds (events (renderFile v cfg (with_phosphor r (ProcExit 0)) w)) /\
  (phosphor_configured cfg = true ->
   forall c1, converter r = ProcExit c1 ->
   In (Console (msg_phosphor_failed cfg r err))
      (events (renderFile v cfg (with_phosphor r (ProcOSError err)) w))).
Proof.
  split; [reflexivity|].
  unfold renderFile, preview, check_output_catching, run_catching, when,
    printConsole, open_image, phosphor_configured, with_phosphor.
  cbn [now now_label signal_names converter phosphor viewer image].
  repeat split.
  1-3: destruct v;
    destruct (converter r) as [c1|]; try destruct (Z.eqb c1 0);
    destruct (viewer r) as [c3|]; try destruct (Z.eqb c3 0);
    destruct (image r);
    destruct (String.eqb (CONV_FORMAT cfg) "png");
    destruct (String.eqb (CONV_FORMAT cfg) "pdf");
    destruct (PNG_PHOSPHOR cfg); destruct (PREVIEW cfg);
    destruct (PREVIEW_NATIVE cfg); reflexivity.
  intros Hcfg c1 Hc. apply andb_prop in Hcfg as [Hpng Hph].
  rewrite Hc, Hpng, Hph.
  destruct v; destruct (Z.eqb c1 0);
    destruct (viewer r) as [c3|]; try destruct (Z.eqb c3 0);
    destruct (image r);
    destruct (String.eqb (CONV_FORMAT cfg) "pdf");
    destruct (PREVIEW cfg); destruct (PREVIEW_NATIVE cfg);
    cbn; auto 10.
Qed.

Lemma phosphor_never_stops_render_witness :
  let cfg := with_format (default_config "/home/u") "png" in
  let r := renderFile Terminal cfg render_phosphor_unspawnable
             (init_world (Some ["a"%char])) in
  result r = Ok tt /\
  In (Console (msg_phosphor_failed cfg render_ok
                 "[Errno 2] No such file or directory")) (events r).
Proof.
  intros cfg r.
  destruct (phosphor_never_stops_render Terminal cfg render_ok
              (init_world (Some ["a"%char])) 0
              "[Errno 2] No such file or directory")
    as [_ [Hr [_ [_ Hm]]]].
  split.
  - unfold r, render_phosphor_unspawnable. rewrite Hr. reflexivity.
  - apply (Hm eq_refl 0%Z). reflexivity.
Defined.

(** X7.  Whenever the converter comes back with an exit status, zero or
    not, a render starts its child processes in a fixed order and each at
    most once: the converter first, then the phosphor step if the format is
    png and [PNG_PHOSPHOR] is set, then the preview if one is configured.
    Which of them run depends on the configuration alone, not on how the
    earlier ones ended. *)
Theorem render_process_order v cfg r w c1 :
  converter r = ProcExit c1 ->
  process_kinds (events (renderFile v cfg r w)) =
    (1 :: (if phosphor_configured cfg then [2] else [])
       ++ (if preview_configured v cfg then [3] else []))%list.
Proof.
  intros Hc.
  unfold renderFile, preview, check_output_catching, run_catching, when,
    printConsole, open_image, phosphor_configured, preview_configured.
  rewrite Hc.
  destruct v; destruct (Z.eqb c1 0); destruct (phosphor r);
    destruct (viewer r) as [c3|]; try destruct (Z.eqb c3 0);
    destruct (image r);
    destruct (String.eqb (CONV_FORMAT cfg) "png");
    destruct (String.eqb (CONV_FORMAT cfg) "pdf");
    destruct (PNG_PHOSPHOR cfg); destruct (PREVIEW cfg);
    destruct (PREVIEW_NATIVE cfg); reflexivity.
Qed.

Lemma render_process_order_witness :
  process_kinds
    (events (renderFile Terminal (with_format (default_config "/home/u") "png")
               render_failing (init_world (Some ["a"%char]))))
  = [1; 2; 3].
Proof.
  apply (render_process_order Terminal
           (with_format (default_config "/home/u") "png") render_failing
           (init_world (Some ["a"%char])) 1).
  reflexivity.
Defined.

(** ** Clearing the buffer, beyond the claims *)

(** X8.  [clearBuffer] is idempotent, in every mode and every world: a
    second call right after the first changes nothing and prints nothing.
    It never touches gate or write handle, it never fails on an existing
    file, and with keep-buffer mode off it leaves an existing file
    empty. *)
Theorem clearBuffer_idempotent cfg w :
  (clearBuffer cfg ;; clearBuffer cfg) w = clearBuffer cfg w /\
  same_gate_and_handle w (world (clearBuffer cfg w)) /\
  (forall content, disk w = Some content ->
     result (clearBuffer cfg w) = Ok tt /\
     (KEEP_BUFFER cfg = false -> disk (world (clearBuffer cfg w)) = Some [])).
Proof.
  split; [|split; [apply clearBuffer_frame|]].
  - rewrite bind_unfold. destruct (KEEP_BUFFER cfg) eqn:Hk.
    + rewrite !(clearBuffer_keep cfg _ Hk). reflexivity.
    + destruct (disk w) as [content|] eqn:Hd.
      * rewrite (clearBuffer_default cfg w content Hk Hd).
        destruct (Nat.eqb (getSize content) 0) eqn:Hsz;
          cbn [result world events fst snd].
        -- rewrite (clearBuffer_default cfg w content Hk Hd), Hsz. reflexivity.
        -- rewrite (clearBuffer_default cfg (with_disk w []) [] Hk eq_refl).
           reflexivity.
      * unfold clearBuffer, open_rb, get_disk, bind. rewrite Hk, Hd.
        reflexivity.
  - intros content Hd. destruct (KEEP_BUFFER cfg) eqn:Hk.
    + rewrite (clearBuffer_keep cfg _ Hk). split; [reflexivity | discriminate].
    + rewrite (clearBuffer_default cfg w content Hk Hd).
      destruct (Nat.eqb (getSize content) 0) eqn:Hsz; split; try reflexivity.
      intros _. cbn [world fst snd]. rewrite Hd.
      destruct content; [reflexivity | discriminate].
Qed.

Lemma clearBuffer_idempotent_witness :
  disk (world (clearBuffer (default_config "/home/u")
                 (captured ["a"%char; "b"%char]))) = Some [].
Proof.
  destruct (clearBuffer_idempotent (default_config "/home/u")
              (captured ["a"%char; "b"%char])) as [_ [_ H]].
  destruct (H ["a"%char; "b"%char] eq_refl) as [_ Hd].
  apply Hd. reflexivity.
Defined.

(** ** The listener beyond the claims *)

Lemma listenLoop_at_end fuel : forall bytes content,
  listenLoop fuel bytes (at_end_of content) =
    (Ok tt, at_end_of (content ++ firstn fuel bytes),
     flat_map pass_events (firstn fuel bytes)).
Proof.
  induction fuel as [|fuel IH]; intros bytes content.
  - cbn. rewrite app_nil_r. reflexivity.
  - destruct bytes as [|b rest].
    + cbn. rewrite app_nil_r. reflexivity.
    + rewrite (listenLoop_running fuel b rest (at_end_of content) eq_refl).
      assert (Hf : flushed b (at_end_of content) = at_end_of (content ++ [b])).
      { unfold flushed, at_end_of. cbn [disk paused wpos wpending option_map].
        rewrite app_nil_l, write_at_end, length_app. reflexivity. }
      rewrite Hf, IH. cbn [result world events fst snd firstn flat_map].
      rewrite <- app_assoc. reflexivity.
Qed.

(** X9.  Capture is faithful.  A listener that has just opened the buffer
    file, left running for [fuel] passes on a line that delivers [bytes],
    has read exactly the first [fuel] bytes, one per pass and each flushed
    before the next is read; the file holds exactly those bytes in the
    order of arrival, the handle's offset is at its end and nothing is
    pending. *)
Theorem capture_is_faithful fuel bytes :
  let r := listenLoop fuel bytes listener_opened in
  r = (Ok tt, at_end_of (firstn fuel bytes),
       flat_map pass_events (firstn fuel bytes)) /\
  List.length (filter is_serial_read (events r))
    = Nat.min fuel (List.length bytes) /\
  (List.length bytes <= fuel -> disk (world r) = Some bytes).
Proof.
  intros r.
  assert (Hr : r = (Ok tt, at_end_of (firstn fuel bytes),
                    flat_map pass_events (firstn fuel bytes)))
    by exact (listenLoop_at_end fuel bytes []).
  split; [exact Hr|]. rewrite Hr. cbn [events world fst snd]. split.
  - rewrite <- (length_firstn fuel bytes). clear Hr.
    induction (firstn fuel bytes) as [|b l IH]; [reflexivity|].
    change (flat_map pass_events (b :: l))
      with (SerialRead b :: FileWrite b :: FileFlush :: flat_map pass_events l).
    cbn [filter is_serial_read List.length]. rewrite IH. reflexivity.
  - intros Hle. rewrite firstn_all2 by exact Hle. reflexivity.
Qed.

Lemma capture_is_faithful_witness :
  disk (world (listenLoop 5 ["a"; "b"; "c"]%char listener_opened))
  = Some ["a"; "b"; "c"]%char.
Proof.
  destruct (capture_is_faithful 5 ["a"; "b"; "c"]%char) as [_ [_ H]].
  apply H. cbn. lia.
Defined.

Lemma listener_at_test_paused n : forall s,
  paused (shared s) = true -> listener s = AtTest -> listener_steps n s = s.
Proof.
  induction n as [|n IH]; intros s Hp Hl; [reflexivity|].
  cbn [listener_steps].
  assert (Hs : listener_step s = s).
  { unfold listener_step. rewrite Hl, Hp. destruct s; cbn in *; subst.
    reflexivity. }
  rewrite Hs. apply IH; assumption.
Qed.

(** X10.  Pausing stops the listener at its gate test, nowhere else.  A
    listener that stands at the test with the gate set goes no further,
    however long it spins: no byte is read from the line, nothing is written
    or flushed.  A listener that was already inside [ser.read(1)] when the
    gate got set is not interrupted: it waits while the line is silent, and
    the next byte the line delivers is read, written and flushed, so exactly
    one byte reaches the buffer file after the pause; then the listener
    stops at the test and the rest of the line stays unread. *)
Theorem listener_after_pause n s :
  paused (shared s) = true ->
  (listener s = AtTest -> listener_steps n s = s) /\
  (listener s = AtRead -> line s = [] -> listener_steps n s = s) /\
  (forall b rest, listener s = AtRead -> line s = b :: rest -> 3 <= n ->
     listener_steps n s =
       {| shared := flushed b (shared s); listener := AtTest;
          monitor := monitor s; line := rest;
          done := (done s ++ pass_events b)%list |}).
Proof.
  intros Hp. split; [|split].
  - apply listener_at_test_paused, Hp.
  - intros Hl Hline. induction n as [|n IH]; [reflexivity|].
    cbn [listener_steps].
    assert (Hs : listener_step s = s)
      by (unfold listener_step; rewrite Hl, Hline; reflexivity).
    rewrite Hs. exact IH.
  - intros b rest Hl Hline Hn.
    destruct n as [|[|[|n]]]; try lia.
    cbn [listener_steps].
    assert (H3 : listener_step (listener_step (listener_step s)) =
                 {| shared := flushed b (shared s); listener := AtTest;
                    monitor := monitor s; line := rest;
                    done := (done s ++ pass_events b)%list |}).
    { unfold listener_step at 3. rewrite Hl, Hline.
      unfold listener_step, dumpfile_write, dumpfile_flush, flushed,
        pass_events.
      cbn [listener shared monitor line done world events fst snd
           disk paused wpos wpending].
      rewrite <- !app_assoc. reflexivity. }
    rewrite H3. apply listener_at_test_paused; [exact Hp | reflexivity].
Qed.

Lemma listener_after_pause_witness :
  let s := {| shared := with_paused (captured ["x"%char]) true;
              listener := AtRead; monitor := AtLoopHead;
              line := ["a"%char; "b"%char]; done := [] |} in
  disk (shared (listener_steps 7 s)) = Some ["x"%char; "a"%char] /\
  line (listener_steps 7 s) = ["b"%char] /\
  done (listener_steps 7 s) = pass_events "a"%char.
Proof.
  intros s.
  destruct (listener_after_pause 7 s eq_refl) as [_ [_ H]].
  rewrite (H "a"%char ["b"%char] eq_refl eq_refl); [|lia].
  repeat split.
Defined.

Lemma captured_at_end bytes : captured bytes = at_end_of bytes.
Proof.
  unfold captured, listener_opened.
  change (world (open_wb (init_world None))) with (at_end_of []).
  rewrite listenLoop_at_end, firstn_all. reflexivity.
Qed.

Lemma write_at_past_end (b : ascii) pos content :
  List.length content <= pos ->
  write_at pos [b] content
    = (content ++ repeat Ascii.zero (pos - List.length content) ++ [b])%list.
Proof.
  intros Hle. unfold write_at. rewrite firstn_all2 by exact Hle.
  rewrite skipn_all2 by (cbn; lia). rewrite app_nil_r. reflexivity.
Qed.

(** The first pass after the file was cut short behind the handle's
    back. *)
Lemma listenLoop_past_end fuel b rest w content :
  paused w = false -> disk w = Some content ->
  List.length content <= wpos w -> wpending w = [] ->
  disk (world (listenLoop (S fuel) (b :: rest) w)) =
    Some (content ++ repeat Ascii.zero (wpos w - List.length content)
            ++ b :: firstn fuel rest)%list.
Proof.
  intros Hp Hd Hle Hpend.
  rewrite (listenLoop_running fuel b rest w Hp). cbn [world fst snd].
  assert (Hf : flushed b w =
               at_end_of (content ++ repeat Ascii.zero (wpos w - List.length content)
                            ++ [b])).
  { unfold flushed, at_end_of. rewrite Hd, Hpend, Hp, app_nil_l.
    cbn [option_map List.length]. rewrite (write_at_past_end b _ _ Hle).
    f_equal. rewrite !length_app, repeat_length. cbn. lia. }
  rewrite Hf, listenLoop_at_end. cbn [world fst snd at_end_of disk].
  rewrite <- !app_assoc. reflexivity.
Qed.

(** X11.  [dumpfile] is opened with mode "wb", not in append mode, and
    [clearBuffer] truncates the file through another handle.  The
    listener's offset stays where it was, so the first byte of the next job
    is written behind a hole: with keep-buffer mode off, after a job of
    [old] bytes has been cleared, by [resume] or by the monitor after its
    render, capturing [new] leaves a file of as many NUL bytes as [old] had
    bytes, followed by [new]. *)
Theorem next_job_starts_behind_a_hole v cfg e old new :
  KEEP_BUFFER cfg = false ->
  old <> [] ->
  new <> [] ->
  quiet_env e ->
  result (renderFile v cfg (render_env e) (captured old)) = Ok tt ->
  let hole := repeat Ascii.zero (List.length old) in
  let resumed := world ((pause cfg ;; resume cfg) (captured old)) in
  let rendered := world (timerCycle v cfg e (captured old)) in
  disk resumed = Some [] /\
  disk (world (listenLoop (List.length new) new resumed))
    = Some (hole ++ new)%list /\
  disk rendered = Some [] /\
  disk (world (listenLoop (List.length new) new rendered))
    = Some (hole ++ new)%list.
Proof.
  intros Hk Hold Hnew Hq Hrender hole resumed rendered.
  subst hole resumed rendered. rewrite captured_at_end in *.
  assert (Hsz : Nat.eqb (getSize old) 0 = false)
    by (destruct old; [contradiction | reflexivity]).
  assert (Hres : world ((pause cfg ;; resume cfg) (at_end_of old))
                 = with_disk (at_end_of old) []).
  { rewrite bind_unfold, pause_runs.
    cbn [result world events fst snd]. rewrite resume_runs.
    rewrite (clearBuffer_default cfg (with_paused (at_end_of old) true) old
               Hk eq_refl), Hsz.
    reflexivity. }
  assert (Hren : world (timerCycle v cfg e (at_end_of old))
                 = with_disk (at_end_of old) []).
  { destruct (timerCycle_completes v cfg e (at_end_of old) old Hk eq_refl
                eq_refl Hold Hq) as [_ H].
    apply H, Hrender. }
  destruct new as [|b rest]; [contradiction|].
  rewrite Hres, Hren. cbn [List.length].
  rewrite (listenLoop_past_end _ b rest (with_disk (at_end_of old) []) []
             eq_refl eq_refl (Nat.le_0_l _) eq_refl).
  cbn [with_disk at_end_of wpos disk List.length app].
  rewrite Nat.sub_0_r, firstn_all. auto.
Qed.

Lemma next_job_starts_behind_a_hole_witness :
  let cfg := default_config "/home/u" in
  let resumed := world ((pause cfg ;; resume cfg) (captured ["a"; "b"]%char)) in
  disk (world (listenLoop 1 ["c"%char] resumed))
    = Some [Ascii.zero; Ascii.zero; "c"%char].
Proof.
  intros cfg resumed.
  destruct (next_job_starts_behind_a_hole Terminal cfg quiet_pass
              ["a"; "b"]%char ["c"%char] eq_refl) as [_ [H _]].
  - discriminate.
  - discriminate.
  - intros content. reflexivity.
  - reflexivity.
  - exact H.
Defined.

(** X12.  Every byte the listener takes makes the file longer, also after
    a truncation.  As long as nothing is pending and the handle's offset is
    not inside the file, a running pass leaves the file exactly one byte
    longer than the offset was, hence strictly longer than before, and both
    the pass and [clearBuffer] keep that condition.  No captured byte can
    leave the size the monitor polls unchanged. *)
Theorem every_byte_grows_the_file cfg b w :
  offset_past_end w ->
  offset_past_end (world (clearBuffer cfg w)) /\
  (paused w = false ->
     offset_past_end (world (listenStep b w)) /\
     size_on_disk (world (listenStep b w)) = wpos w + 1 /\
     size_on_disk w < size_on_disk (world (listenStep b w))).
Proof.
  intros [content [Hd [Hle Hpend]]]. split.
  - destruct (clearBuffer_frame cfg w) as [_ [Hpos Hpe]].
    destruct (KEEP_BUFFER cfg) eqn:Hk.
    + rewrite (clearBuffer_keep cfg w Hk). exists content. auto.
    + rewrite (clearBuffer_default cfg w content Hk Hd).
      destruct (Nat.eqb (getSize content) 0).
      * exists content. auto.
      * exists []. cbn. repeat split; [lia | exact Hpend].
  - intros Hp. rewrite (listenStep_running b w Hp). cbn [world fst snd].
    unfold size_on_disk, flushed, offset_past_end.
    cbn [disk wpos wpending]. rewrite Hd, Hpend, app_nil_l.
    cbn [option_map]. rewrite (write_at_past_end b _ _ Hle).
    unfold getSize. rewrite !length_app, repeat_length. cbn [List.length].
    repeat split; try lia.
    eexists. split; [reflexivity|].
    rewrite !length_app, repeat_length. cbn [List.length]. split; [lia | reflexivity].
Qed.

Lemma every_byte_grows_the_file_witness :
  let w := with_disk (captured ["a"; "b"; "c"]%char) [] in
  size_on_disk w = 0 /\ size_on_disk (world (listenStep "d" w)) = 4.
Proof.
  intros w.
  assert (H : offset_past_end w).
  { exists []. repeat split. cbn. lia. }
  destruct (every_byte_grows_the_file (default_config "/home/u") "d"%char w H)
    as [_ Hstep].
  destruct (Hstep eq_refl) as [_ [Hsize _]].
  split; [reflexivity | exact Hsize].
Defined.

(** X13.  With [SERIAL_IGNORE] set the listener does nothing at all, in
    both variants: it prints that the interface is skipped and returns.
    The port is not opened, no startup command is sent, the buffer file is
    neither created nor truncated, no byte is read, and in [pcl_dump.py]
    the undefined name [logger] is never reached.  This holds even when
    port and buffer file could not have been opened. *)
Theorem ignored_serial_listener_is_inert cfg env w :
  SERIAL_IGNORE cfg = true ->
  listenSerial_terminal pcl_dump_globals cfg env w
    = (Ok tt, w, [Console (msg_skipping cfg)]) /\
  listenSerial_pro cfg env w = (Ok tt, w, [Console (msg_skipping cfg)]) /\
  capture_startup_pro cfg env w =
    (Ok tt, w,
     [Console "Starting timer thread...";
      Console "Starting keyboard input thread...";
      Console "Starting serial listener thread...";
      Console (msg_skipping cfg)]).
Proof.
  intros Hi.
  unfold listenSerial_terminal, capture_startup_pro, listenSerial_pro,
    SerialListener_init.
  rewrite Hi. repeat split.
Qed.

Lemma ignored_serial_listener_is_inert_witness :
  let cfg := {| SERIAL_PORT := "/dev/ttyUSB0"; SERIAL_RATE := 19200;
                SERIAL_IGNORE := true; BUFFER_FILE := "/tmp/scope.dump";
                KEEP_BUFFER := false; TIMEOUT_S := 2;
                PCL_BINARY := "/usr/local/bin/gpcl6"; PCL_ARGS := "";
                FILE_DIR := "/home/u"; FILE_BASENAME := "scope_output_";
                FILE_VIEWER := "firefox"; CONV_FORMAT := "pdf";
                PNG_PHOSPHOR := true; PNG_PHOSPHOR_CMD := "/usr/bin/convert";
                PNG_PHOSPHOR_ARGS := ""; PREVIEW := true;
                PREVIEW_NATIVE := false; COMMANDS_STARTUP := ["++read"];
                COMMANDS_DELAY := 1200 |} in
  result (listenSerial_terminal pcl_dump_globals cfg buffer_unopenable
            (init_world None)) = Ok tt.
Proof.
  intros cfg.
  destruct (ignored_serial_listener_is_inert cfg buffer_unopenable
              (init_world None) eq_refl) as [H _].
  rewrite H. reflexivity.
Defined.

(** ** The keyboard beyond the claims *)

Lemma lower_idempotent k : lower (lower k) = lower k.
Proof. destruct k as [[] [] [] [] [] [] [] []]; reflexivity. Qed.

Lemma lower_upper_char k : lower (upper_char k) = lower k.
Proof. destruct k as [[] [] [] [] [] [] [] []]; reflexivity. Qed.

(** X14.  The key handler looks at the lower-cased key only: for a key of
    the ASCII range, the key, its lower-case form and its upper-case form
    are handled in exactly the same way, in every world. *)
Theorem handleKey_ignores_case cfg k :
  nat_of_ascii k < 128 ->
  handleKey cfg (lower k) = handleKey cfg k /\
  handleKey cfg (upper_char k) = handleKey cfg k.
Proof.
  intros _. unfold handleKey. rewrite lower_idempotent, lower_upper_char. auto.
Qed.

Lemma handleKey_ignores_case_witness :
  let cfg := default_config "/home/u" in
  handleKey cfg "q"%char = handleKey cfg "Q"%char /\
  handleKey cfg "Q"%char = handleKey cfg "Q"%char.
Proof.
  intros cfg.
  apply (handleKey_ignores_case cfg "Q"%char). cbn. lia.
Defined.

Lemma plain_key_leaves_world cfg k w :
  changes_state k = false ->
  result (handleKey cfg k w) = Ok tt /\ world (handleKey cfg k w) = w.
Proof.
  unfold changes_state. intros H.
  apply orb_false_elim in H as [H Hr]. apply orb_false_elim in H as [Hq Hp].
  unfold handleKey. rewrite Hq, Hp, Hr. cbn [when].
  destruct (Ascii.eqb (lower k) "i"), (Ascii.eqb (lower k) "h");
    split; reflexivity.
Qed.

(** X15.  Only [q], [p] and [r] can change anything.  Every other key is
    handled, returns, and leaves buffer, gate and write handle exactly as
    they were; unless it is [i] or [h] it prints nothing either. *)
Theorem other_keys_change_nothing cfg k w :
  changes_state k = false ->
  result (handleKey cfg k w) = Ok tt /\
  world (handleKey cfg k w) = w /\
  (prints_only k = false -> events (handleKey cfg k w) = []).
Proof.
  unfold changes_state, prints_only. intros H.
  apply orb_false_elim in H as [H Hr]. apply orb_false_elim in H as [Hq Hp].
  unfold handleKey. rewrite Hq, Hp, Hr. cbn [when].
  destruct (Ascii.eqb (lower k) "i"), (Ascii.eqb (lower k) "h");
    repeat split; try reflexivity; discriminate.
Qed.

Lemma other_keys_change_nothing_witness :
  handleKey (default_config "/home/u") "x"%char (captured ["a"%char])
  = (Ok tt, captured ["a"%char], []).
Proof.
  destruct (other_keys_change_nothing (default_config "/home/u") "x"%char
              (captured ["a"%char]) eq_refl) as [Hr [Hw He]].
  specialize (He eq_refl).
  destruct (handleKey (default_config "/home/u") "x"%char (captured ["a"%char]))
    as [[o w'] t].
  cbn [result world events fst snd] in *. subst. reflexivity.
Defined.

Lemma handleInput_app cfg keys1 : forall keys2 w,
  handleInput cfg (keys1 ++ keys2) w
    = (handleInput cfg keys1 ;; handleInput cfg keys2) w.
Proof.
  induction keys1 as [|k rest IH]; intros keys2 w.
  - rewrite app_nil_l, bind_unfold. cbn [handleInput ret result world events fst snd].
    destruct (handleInput cfg keys2 w) as [[o w'] t]. reflexivity.
  - rewrite <- app_comm_cons. cbn [handleInput]. rewrite !bind_unfold.
    destruct (result (handleKey cfg k w)) eqn:Hk; cbn [result fst];
      rewrite ?Hk; try reflexivity.
    rewrite IH, !bind_unfold. cbn [result world events fst snd].
    destruct (result (handleInput cfg rest _)); cbn [result world events fst snd];
      rewrite ?app_assoc; reflexivity.
Qed.

Lemma quit_runs cfg k w :
  Ascii.eqb (lower k) "q" = true ->
  handleKey cfg k w = (Exit 0, w, quit_lines).
Proof.
  intros H. apply Ascii.eqb_eq in H. unfold handleKey. rewrite H. reflexivity.
Qed.

(** X16.  Quit ends the process with status 0 and nothing typed after it
    is handled.  If the keys before the quit key were all handled, the
    handler's run over the whole input is its run over those keys followed
    by the two quit lines around a half-second sleep; the quit itself
    leaves buffer and gate as the earlier keys left them, so quitting does
    not clear the buffer. *)
Theorem quit_ends_input cfg before k after w :
  Ascii.eqb (lower k) "q" = true ->
  result (handleInput cfg before w) = Ok tt ->
  handleInput cfg (before ++ k :: after) w =
    (Exit 0, world (handleInput cfg before w),
     (events (handleInput cfg before w) ++ quit_lines)%list).
Proof.
  intros Hq Hok. rewrite handleInput_app, bind_unfold, Hok.
  cbn [handleInput]. rewrite bind_unfold, (quit_runs cfg k _ Hq). reflexivity.
Qed.

Lemma quit_ends_input_witness :
  let r := handleInput (default_config "/home/u") ["p"; "Q"; "r"; "r"]%char
             (captured ["a"%char]) in
  result r = Exit 0 /\ paused (world r) = true /\
  disk (world r) = Some ["a"%char].
Proof.
  intros r. unfold r.
  change ["p"; "Q"; "r"; "r"]%char
    with (["p"%char] ++ "Q"%char :: ["r"; "r"]%char)%list.
  rewrite (quit_ends_input (default_config "/home/u") ["p"%char] "Q"%char
             ["r"; "r"]%char (captured ["a"%char]) eq_refl eq_refl).
  repeat split.
Defined.

(** X17.  Resume needs the buffer file unless keep-buffer mode is on.
    With the mode off and no buffer file, [clearBuffer] fails in its
    [open(BUFFER_FILE, 'rb')]: the resume key only prints its line, the
    gate is not cleared, and the keyboard loop ends with
    [FileNotFoundError], so no later key, not even quit, is handled.  With
    keep-buffer mode on the file is never opened and the same key clears
    the gate. *)
Theorem resume_without_buffer_file cfg k rest w :
  is_resume_key k = true ->
  disk w = None ->
  (KEEP_BUFFER cfg = false ->
     handleInput cfg (k :: rest) w =
       (Raise FileNotFoundError, w,
        [Console "'R' received, resuming serial capture..."])) /\
  (KEEP_BUFFER cfg = true ->
     handleKey cfg k w =
       (Ok tt, with_paused w false,
        [Console "'R' received, resuming serial capture..."])).
Proof.
  intros Hk Hd. split; intros Hkeep.
  - cbn [handleInput]. rewrite bind_unfold, (handleKey_resume cfg k Hk), resume_runs.
    unfold clearBuffer, open_rb, get_disk, bind. rewrite Hkeep, Hd. reflexivity.
  - rewrite (handleKey_resume cfg k Hk), resume_runs,
      (clearBuffer_keep cfg w Hkeep).
    reflexivity.
Qed.

Lemma resume_without_buffer_file_witness :
  let w := with_paused (init_world None) true in
  let r := handleInput (default_config "/home/u") ["r"; "q"]%char w in
  result r = Raise FileNotFoundError /\ paused (world r) = true.
Proof.
  intros w r.
  destruct (resume_without_buffer_file (default_config "/home/u") "r"%char
              ["q"%char] w eq_refl eq_refl) as [H _].
  unfold r. rewrite (H eq_refl). split; reflexivity.
Defined.

Lemma startStopSerial_start cfg w :
  result (startStopSerial cfg "start" w) = result (resume cfg w) /\
  world (startStopSerial cfg "start" w) = world (resume cfg w).
Proof.
  rewrite resume_runs. unfold startStopSerial.
  change (String.eqb "start" "start") with true. cbv iota.
  unfold printConsole, emit, set_paused.
  destruct (clearBuffer cfg w) as [[[[]|x|c] w'] t] eqn:E;
    unfold bind; rewrite E; cbn; auto.
Qed.

Lemma startStopSerial_stop cfg w :
  result (startStopSerial cfg "stop" w) = Ok tt /\
  world (startStopSerial cfg "stop" w) = with_paused w true.
Proof. split; reflexivity. Qed.

(** X18.  The two variants drive the shared state alike.  For every key
    and every world, [Input.handleInput] of [scope_dump_pro.py] ends the
    way [handleInput] of [pcl_dump.py] ends (return, exception or exit) and
    leaves the same buffer, gate and handle; and the GUI's stop and start
    controls do to the state what the keys [p] and [r] do. *)
Theorem key_handlers_agree cfg k w :
  result (handleKey_pro cfg k w) = result (handleKey cfg k w) /\
  world (handleKey_pro cfg k w) = world (handleKey cfg k w) /\
  result (serialControl cfg "stop" w) = result (pause cfg w) /\
  world (serialControl cfg "stop" w) = world (pause cfg w) /\
  result (serialControl cfg "start" w) = result (resume cfg w) /\
  world (serialControl cfg "start" w) = world (resume cfg w).
Proof.
  assert (Hkeys : result (handleKey_pro cfg k w) = result (handleKey cfg k w) /\
                  world (handleKey_pro cfg k w) = world (handleKey cfg k w)).
  { destruct (Ascii.eqb_spec (lower k) "q") as [Eq|Nq].
    { unfold handleKey_pro, handleKey. rewrite Eq. split; reflexivity. }
    destruct (Ascii.eqb_spec (lower k) "p") as [Ep|Np].
    { unfold handleKey_pro, handleKey. rewrite Ep. split; reflexivity. }
    destruct (Ascii.eqb_spec (lower k) "r") as [Er|Nr].
    { assert (Hr : is_resume_key k = true)
        by (unfold is_resume_key; rewrite Er; reflexivity).
      rewrite (handleKey_resume cfg k Hr).
      destruct (startStopSerial_start cfg w) as [Hres Hw].
      rewrite <- Hres, <- Hw.
      unfold handleKey_pro. rewrite Er.
      change (Ascii.eqb "r" "q") with false.
      change (Ascii.eqb "r" "p") with false.
      change (Ascii.eqb "r" "r") with true.
      change (Ascii.eqb "r" "i") with false.
      change (Ascii.eqb "r" "h") with false.
      cbn [when]. unfold printConsole, emit, ret.
      destruct (startStopSerial cfg "start" w) as [[[[]|x|c] w'] t] eqn:E;
        unfold bind; rewrite E; cbn; auto. }
    assert (Hc : changes_state k = false).
    { unfold changes_state.
      destruct (Ascii.eqb_spec (lower k) "q"); [contradiction|].
      destruct (Ascii.eqb_spec (lower k) "p"); [contradiction|].
      destruct (Ascii.eqb_spec (lower k) "r"); [contradiction|].
      reflexivity. }
    destruct (plain_key_leaves_world cfg k w Hc) as [Hres Hw].
    rewrite Hres, Hw.
    apply orb_false_elim in Hc as [Hc Hr].
    apply orb_false_elim in Hc as [Hq Hp].
    unfold handleKey_pro. rewrite Hq, Hp, Hr. cbn [when].
    destruct (Ascii.eqb (lower k) "i"), (Ascii.eqb (lower k) "h");
      split; reflexivity. }
  destruct Hkeys as [H1 H2].
  destruct (startStopSerial_start cfg w) as [H3 H4].
  repeat split; assumption.
Qed.

(** ** Console output *)

Lemma length_append (s1 s2 : string) :
  String.length (s1 ++ s2) = String.length s1 + String.length s2.
Proof. induction s1 as [|c s1 IH]; cbn; [reflexivity | rewrite IH; reflexivity]. Qed.

Lemma append_nil_r (s : string) : s ++ "" = s.
Proof. induction s as [|c s IH]; cbn; [reflexivity | rewrite IH; reflexivity]. Qed.

Lemma append_assoc (s1 s2 s3 : string) : (s1 ++ s2) ++ s3 = s1 ++ (s2 ++ s3).
Proof. induction s1 as [|c s1 IH]; cbn; [reflexivity | rewrite IH; reflexivity]. Qed.

Lemma length_copies n c : String.length (copies n c) = n.
Proof. unfold copies. induction n as [|n IH]; cbn; [reflexivity | rewrite IH; reflexivity]. Qed.

Lemma copies_snoc n c : copies n c ++ String c "" = copies (S n) c.
Proof.
  unfold copies. induction n as [|n IH]; [reflexivity|].
  cbn [repeat string_of_list_ascii append] in *. rewrite IH. reflexivity.
Qed.

Lemma blank_loop_runs fuel : forall i columns,
  columns - i <= fuel ->
  blank_loop fuel i columns (copies i " ") = copies (Nat.max i columns) " ".
Proof.
  induction fuel as [|fuel IH]; intros i columns Hf.
  - cbn. replace (Nat.max i columns) with i by lia. reflexivity.
  - cbn [blank_loop]. destruct (Nat.ltb_spec i columns) as [Hlt|Hge].
    + rewrite copies_snoc, Nat.add_1_r, IH by lia.
      f_equal. lia.
    + replace (Nat.max i columns) with i by lia. reflexivity.
Qed.

Lemma dots_loop_runs fuel : forall i seconds,
  seconds - i <= fuel ->
  dots_loop fuel i seconds (copies i ".") = copies (Nat.max i seconds) ".".
Proof.
  induction fuel as [|fuel IH]; intros i seconds Hf.
  - cbn. replace (Nat.max i seconds) with i by lia. reflexivity.
  - cbn [dots_loop]. destruct (Nat.ltb_spec i seconds) as [Hlt|Hge].
    + rewrite copies_snoc, Nat.add_1_r, IH by lia.
      f_equal. lia.
    + replace (Nat.max i seconds) with i by lia. reflexivity.
Qed.

Lemma blank_string_runs columns :
  blank_loop columns 0 columns "" = copies columns " ".
Proof.
  pose proof (blank_loop_runs columns 0 columns) as H.
  rewrite Nat.max_0_l in H. apply H. lia.
Qed.

Lemma dots_run seconds :
  dots_loop seconds 1 seconds "." = copies (Nat.max 1 seconds) ".".
Proof. apply (dots_loop_runs seconds 1 seconds). lia. Qed.

Lemma length_ljust width s :
  String.length (ljust width s) = Nat.max width (String.length s).
Proof.
  unfold ljust. fold (copies (width - String.length s) " ").
  rewrite length_append, length_copies. lia.
Qed.

Lemma ljust_wide width s : width <= String.length s -> ljust width s = s.
Proof.
  intros H. unfold ljust. replace (width - String.length s) with 0 by lia.
  apply append_nil_r.
Qed.

(** X19.  A status line ([newLine] off, [animateDots] on) is printed in two
    chunks, both ending in a carriage return.  The first blanks the row
    with exactly [columns] spaces, one more than the justified width, so it
    is never padded.  The second is the text followed by as many dots as
    the last digit of the clock's seconds says, but one dot at least: one
    to nine dots, padded to [columns - 1]. *)
Theorem status_line_output columns second (text : string) (startNewLine : bool) :
  columns <> 0 ->
  let shown : string := if startNewLine then CRLF ++ text else text in
  let dots := copies (Nat.max 1 (second mod 10)) "." in
  printConsole_stdout columns second text false startNewLine true =
    Some [copies columns " " ++ CR; ljust (columns - 1) (shown ++ dots) ++ CR]
  /\ 1 <= String.length dots <= 9.
Proof.
  intros Hc shown dots. split.
  - unfold printConsole_stdout.
    destruct (Nat.eqb_spec columns 0) as [|_]; [contradiction|].
    rewrite blank_string_runs, dots_run.
    rewrite ljust_wide by (rewrite length_copies; lia).
    reflexivity.
  - unfold dots. rewrite length_copies.
    pose proof (Nat.mod_upper_bound second 10). lia.
Qed.

Lemma status_line_output_witness :
  printConsole_stdout 20 37 "Waiting for input." false false true =
    Some [copies 20 " " ++ CR;
          ljust 19 ("Waiting for input." ++ copies 7 ".") ++ CR].
Proof.
  destruct (status_line_output 20 37 "Waiting for input." false) as [H _].
  - discriminate.
  - exact H.
Defined.

Lemma prefix_append (s1 s2 : string) : String.prefix s1 (s1 ++ s2) = true.
Proof.
  induction s1 as [|c s1 IH]; cbn; [destruct s2; reflexivity|].
  destruct (ascii_dec c c); [exact IH | contradiction].
Qed.

(** X20.  A full line ([newLine] on) is one chunk: the text, after a
    carriage return and line feed of its own when [startNewLine] is on,
    padded with spaces to [columns - 1] and ended by carriage return and
    line feed.  The text is never cut: a message wider than the terminal is
    printed whole, without padding.  The clock and [animateDots] play no
    part.  On a terminal that reports 0 columns every call fails, whatever
    the flags. *)
Theorem full_line_output columns second (text : string)
    (startNewLine animateDots : bool) :
  let shown : string := if startNewLine then CRLF ++ text else text in
  (columns <> 0 ->
     printConsole_stdout columns second text true startNewLine animateDots
       = Some [ljust (columns - 1) shown ++ CRLF] /\
     String.prefix shown (ljust (columns - 1) shown) = true /\
     String.length (ljust (columns - 1) shown)
       = Nat.max (columns - 1) (String.length shown)) /\
  (forall newLine,
     printConsole_stdout 0 second text newLine startNewLine animateDots = None).
Proof.
  intros shown. split.
  - intros Hc. unfold printConsole_stdout.
    destruct (Nat.eqb_spec columns 0) as [|_]; [contradiction|].
    split; [reflexivity|]. split; [apply prefix_append | apply length_ljust].
  - reflexivity.
Qed.

Lemma full_line_output_witness :
  printConsole_stdout 10 0 "Cleared buffer on disk" true false false
  = Some ["Cleared buffer on disk" ++ CRLF].
Proof.
  destruct (full_line_output 10 0 "Cleared buffer on disk" false false)
    as [H _].
  destruct H as [Hp _]; [discriminate|].
  exact Hp.
Defined.

Lemma one_line_strip_crlf s : one_line (strip_crlf s) = true.
Proof.
  induction s as [|c s IH]; [reflexivity|].
  cbn [strip_crlf].
  destruct (Ascii.eqb c (ascii_of_nat 13) || Ascii.eqb c (ascii_of_nat 10))%bool
    eqn:E; [exact IH|].
  cbn [one_line]. rewrite E, IH. reflexivity.
Qed.

(** X21.  [strip_crlf], the [replace('\r', '').replace('\n', '')] applied
    to a startup command before it is shown and to every line of the GUI
    log, leaves no carriage return and no line feed, keeps a text without
    them as it is, works piecewise over a concatenation, and doing it twice
    changes nothing more. *)
Theorem strip_crlf_gives_one_line (s1 s2 : string) :
  one_line (strip_crlf s1) = true /\
  (one_line s1 = true -> strip_crlf s1 = s1) /\
  strip_crlf (s1 ++ s2) = strip_crlf s1 ++ strip_crlf s2 /\
  strip_crlf (strip_crlf s1) = strip_crlf s1.
Proof.
  assert (Hfix : forall s, one_line s = true -> strip_crlf s = s).
  { induction s as [|c s IH]; [reflexivity|].
    cbn [one_line strip_crlf]. intros H. apply andb_prop in H as [Hc Hs].
    apply negb_true_iff in Hc. rewrite Hc, (IH Hs). reflexivity. }
  split; [apply one_line_strip_crlf|].
  split; [apply Hfix|].
  split; [|apply Hfix, one_line_strip_crlf].
  induction s1 as [|c s1 IH]; [reflexivity|].
  cbn [append strip_crlf].
  destruct (Ascii.eqb c (ascii_of_nat 13) || Ascii.eqb c (ascii_of_nat 10))%bool;
    cbn [append]; rewrite IH; reflexivity.
Qed.

Lemma strip_crlf_gives_one_line_witness :
  strip_crlf "++read" = "++read" /\
  strip_crlf ("++read" ++ CRLF) = "++read".
Proof.
  destruct (strip_crlf_gives_one_line "++read" CRLF) as [_ [Hfix [Happ _]]].
  split; [apply Hfix; reflexivity|].
  rewrite Happ, (Hfix eq_refl). reflexivity.
Defined.

Lemma well_formed_logLine s : well_formed_log (logLine s) = true.
Proof. cbn. apply one_line_strip_crlf. Qed.

(** X22.  Routing in the logger of the GUI variant.  Whenever the call
    returns, it ends with exactly one refresh of the window.  A GUI-only
    message writes nothing to the terminal and does not need one, so it
    also works where the terminal reports no columns.  An animated status
    line never reaches the GUI log.  Nothing reaches the GUI log when
    [NATIVE_LOGGER] is off.  And every entry of the GUI log is one line
    feed followed by text without line breaks, also when the message asked
    for a new line of its own. *)
Theorem logger_routing native_logger timestamps stamp columns second text
    newLine startNewLine animateDots logToGUI GUIOnly out :
  printConsole_pro native_logger timestamps stamp columns second text
    newLine startNewLine animateDots logToGUI GUIOnly = Some out ->
  (exists before, out = (before ++ [GuiRefresh])%list /\
                  existsb (fun s => match s with GuiRefresh => true | _ => false end)
                    before = false) /\
  (GUIOnly = true -> existsb is_stdout out = false) /\
  (GUIOnly = false -> newLine = false -> animateDots = true ->
     existsb is_gui_log out = false) /\
  (native_logger = false -> existsb is_gui_log out = false) /\
  forallb well_formed_log out = true.
Proof.
  unfold printConsole_pro. intros H.
  destruct GUIOnly.
  - injection H as <-. destruct native_logger.
    + split; [eexists [_]; split; reflexivity|].
      repeat split; try discriminate.
      rewrite forallb_app. cbn [forallb]. rewrite well_formed_logLine. reflexivity.
    + split; [exists []; split; reflexivity|].
      repeat split; discriminate.
  - destruct (Nat.eqb columns 0); [discriminate|].
    destruct newLine; [|destruct animateDots]; injection H as <-.
    + destruct native_logger, logToGUI; cbn [andb]; unfold List.app.
      1: split; [eexists [_; _]; split; reflexivity|].
      2-4: split; [eexists [_]; split; reflexivity|].
      all: repeat split; try discriminate; try reflexivity.
      cbn [forallb well_formed_log]. rewrite well_formed_logLine. reflexivity.
    + split; [eexists [_; _]; split; reflexivity|].
      repeat split; try discriminate; reflexivity.
    + destruct native_logger, logToGUI; cbn [andb]; unfold List.app.
      1: split; [eexists [_; _]; split; reflexivity|].
      2-4: split; [eexists [_]; split; reflexivity|].
      all: repeat split; try discriminate; try reflexivity.
      cbn [forallb well_formed_log]. rewrite well_formed_logLine. reflexivity.
Qed.

Lemma logger_routing_witness :
  printConsole_pro true true "2024-01-01 00:00:00" 0 0
    "Resume received, resuming capture..." true false false true true
  = Some [logLine "[2024-01-01 00:00:00] Resume received, resuming capture...";
          GuiRefresh].
Proof.
  destruct (logger_routing true true "2024-01-01 00:00:00" 0 0
              "Resume received, resuming capture..." true false false true true
              _ eq_refl) as [_ [H _]].
  reflexivity.
Defined.

(** ** Command-line arguments *)

(** X23.  In [pcl_dump.py] the options [-p], [-s] and [-f] cannot be used:
    a port or buffer name that is not empty, or a speed other than 0, makes
    [handleArgs] raise [AttributeError], for the first of [port], [speed],
    [buffer] that was asked for, after [-n] and [-k] have taken effect.
    Without those three options it returns, and the only globals it can
    have changed are [SERIAL_IGNORE] and [KEEP_BUFFER], which it can only
    turn on. *)
Theorem handleArgs_terminal_options args c :
  let r := handleArgs_terminal args c in
  (snd r = inl tt <->
     truthy_string (arg_p args) = false /\ truthy_int (arg_s args) = false /\
     truthy_string (arg_f args) = false) /\
  (truthy_string (arg_p args) = true -> snd r = inr "port") /\
  (truthy_string (arg_p args) = false -> truthy_int (arg_s args) = true ->
     snd r = inr "speed") /\
  (truthy_string (arg_p args) = false -> truthy_int (arg_s args) = false ->
     truthy_string (arg_f args) = true -> snd r = inr "buffer") /\
  fst r = override c None None
            (if arg_n args then Some true else None)
            (if arg_k args then Some true else None) None None /\
  SERIAL_IGNORE (fst r) = (arg_n args || SERIAL_IGNORE c)%bool /\
  KEEP_BUFFER (fst r) = (arg_k args || KEEP_BUFFER c)%bool.
Proof.
  unfold handleArgs_terminal. cbv zeta.
  destruct (truthy_string (arg_p args)), (truthy_int (arg_s args)),
    (truthy_string (arg_f args)), (arg_n args), (arg_k args), c;
    cbn; repeat split; try reflexivity; try discriminate;
    try (intros [? [? ?]]; discriminate); intros; discriminate.
Qed.

Lemma handleArgs_terminal_options_witness :
  let r := handleArgs_terminal args_keep_and_port (default_config "/home/u") in
  snd r = inr "port" /\ KEEP_BUFFER (fst r) = true.
Proof.
  intros r.
  destruct (handleArgs_terminal_options args_keep_and_port
              (default_config "/home/u")) as [_ [Hp [_ [_ [_ [_ Hk]]]]]].
  split; [apply Hp; reflexivity | exact Hk].
Defined.

(** X24.  In [scope_dump_pro.py] the arguments always parse into the
    configuration: [handleArgs] changes exactly the globals whose option
    was given with a value that counts, and leaves every other one alone.
    [-n] and [-k] can only turn their flag on.  An empty port, buffer or
    directory name and the speed 0 are ignored, the built-in value stays.
    Applying the same arguments twice is the same as applying them once,
    and no arguments change nothing. *)
Theorem handleArgs_pro_effect args c :
  handleArgs_pro args c =
    override c (given_string (arg_p args)) (given_int (arg_s args))
      (if arg_n args then Some true else None)
      (if arg_k args then Some true else None)
      (given_string (arg_f args)) (given_string (arg_o args)) /\
  handleArgs_pro args (handleArgs_pro args c) = handleArgs_pro args c /\
  handleArgs_pro no_args c = c /\
  (arg_s args = Some 0%Z -> SERIAL_RATE (handleArgs_pro args c) = SERIAL_RATE c) /\
  (arg_p args = Some "" -> SERIAL_PORT (handleArgs_pro args c) = SERIAL_PORT c).
Proof.
  unfold handleArgs_pro, given_string, given_int. cbv zeta.
  destruct args as [n k p s f o], c. cbn [arg_n arg_k arg_p arg_s arg_f arg_o].
  destruct n, k, p as [[|? ?]|], s as [[| |]|], f as [[|? ?]|], o as [[|? ?]|];
    cbn; repeat split; try reflexivity; intros; discriminate.
Qed.

Lemma handleArgs_pro_effect_witness :
  let args := {| arg_n := true; arg_k := false; arg_p := Some "";
                 arg_s := Some 0%Z; arg_f := Some "/tmp/raw";
                 arg_o := None |} in
  let c := handleArgs_pro args (default_config "/home/u") in
  SERIAL_RATE c = 19200%Z /\ SERIAL_PORT c = "/dev/ttyUSB0".
Proof.
  intros args c.
  destruct (handleArgs_pro_effect args (default_config "/home/u"))
    as [_ [_ [_ [Hs Hp]]]].
  split; [apply Hs | apply Hp]; reflexivity.
Defined.

(** ** Output names *)

Lemma append_cancel_l (p s1 s2 : string) : p ++ s1 = p ++ s2 -> s1 = s2.
Proof.
  induction p as [|c p IH]; cbn; intros H; [exact H|].
  injection H as H. exact (IH H).
Qed.

Lemma append_cancel_r (s1 : string) : forall s2 q, s1 ++ q = s2 ++ q -> s1 = s2.
Proof.
  induction s1 as [|c s1 IH]; intros s2 q H.
  - destruct s2 as [|d s2]; [reflexivity|]. exfalso.
    apply (f_equal String.length) in H. cbn in H. rewrite length_append in H. lia.
  - destruct s2 as [|d s2].
    + exfalso. apply (f_equal String.length) in H. cbn in H.
      rewrite length_append in H. lia.
    + cbn in H. injection H as Hc H. subst d. f_equal. exact (IH s2 q H).
Qed.

(** X25.  The name of the output file is a function of the clock alone,
    for a given configuration: two renders write to the same file exactly
    when their timestamps, taken to the second, are the same.  Renders in
    different seconds never share a file, and a second render within the
    same second is pointed at the file of the first. *)
Theorem file_name_follows_clock cfg r1 r2 :
  file_name cfg r1 = file_name cfg r2 <-> now r1 = now r2.
Proof.
  unfold file_name. split.
  - intros H.
    apply append_cancel_l, append_cancel_l, append_cancel_l in H.
    exact (append_cancel_r _ _ _ H).
  - intros ->. reflexivity.
Qed.

Lemma file_name_follows_clock_witness :
  file_name (default_config "/home/u") (at_time render_ok "2024-01-01_10:00:00")
  <> file_name (default_config "/home/u") (at_time render_ok "2024-01-01_10:00:01").
Proof.
  intros H.
  apply (file_name_follows_clock (default_config "/home/u")) in H.
  discriminate H.
Defined.

(** ** Fatal startup errors *)

(** X26.  A serial port that cannot be opened is fatal in both variants and
    nothing is retried: the failure is reported in three console lines, the
    last two being "Unable to continue, exiting..." and "Goodbye", and the
    process exits with status 5.  Nothing else has happened by then: no
    startup command, no buffer file, no thread of the GUI variant
    started, and in [pcl_dump.py] the undefined name [logger] is not
    reached. *)
Theorem unopenable_port_exits_5 cfg env w :
  SERIAL_IGNORE cfg = false ->
  serial_opens env = false ->
  let fatal := [Console (msg_serial_failed cfg env);
                Console "Unable to continue, exiting..."; Console "Goodbye"] in
  listenSerial_terminal pcl_dump_globals cfg env w = (Exit 5, w, fatal) /\
  capture_startup_pro cfg env w = (Exit 5, w, fatal).
Proof.
  intros Hi Ho fatal.
  unfold listenSerial_terminal, capture_startup_pro, SerialListener_init,
    open_serial. rewrite Hi, Ho. split; reflexivity.
Qed.

Lemma unopenable_port_exits_5_witness :
  result (listenSerial_terminal pcl_dump_globals (default_config "/home/u")
            port_unopenable (init_world None)) = Exit 5 /\
  result (capture_startup_pro (default_config "/home/u") port_unopenable
            (init_world None)) = Exit 5.
Proof.
  destruct (unopenable_port_exits_5 (default_config "/home/u") port_unopenable
              (init_world None) eq_refl eq_refl) as [Ht Hp].
  rewrite Ht, Hp. split; reflexivity.
Defined.

(** X27.  In [scope_dump_pro.py], with port and startup commands done, a
    buffer file that cannot be opened for writing is fatal in the same
    way: three console lines and exit status 5, and the capture loop is
    never entered, so no byte is read from the line. *)
Theorem unopenable_buffer_exits_5_pro cfg env w :
  SERIAL_IGNORE cfg = false ->
  serial_opens env = true ->
  buffer_opens env = false ->
  let r := capture_startup_pro cfg env w in
  result r = Exit 5 /\
  world r = w /\
  existsb is_serial_read (events r) = false /\
  serial_writes (events r) = COMMANDS_STARTUP cfg /\
  exists before,
    events r = (before ++
                [Console (msg_buffer_failed cfg env);
                 Console "Unable to continue, exiting..."; Console "Goodbye"])%list.
Proof.
  intros Hi Hs Hb r.
  assert (Hr : r = (Exit 5, w,
                    ([SerialOpen; Console "Executing any startup commands..."]
                     ++ startup_block_pro (COMMANDS_DELAY cfg) (COMMANDS_STARTUP cfg)
                     ++ [Console "Starting timer thread...";
                         Console "Starting keyboard input thread...";
                         Console "Starting serial listener thread..."]
                     ++ [Console (msg_buffer_failed cfg env);
                         Console "Unable to continue, exiting...";
                         Console "Goodbye"])%list)).
  { unfold r, capture_startup_pro, SerialListener_init, listenSerial_pro,
      open_serial, open_buffer, report_fatal. rewrite Hi, Hs, Hb.
    cbn [negb when]. unfold printConsole.
    repeat (first [rewrite send_startup_pro_runs | rewrite bind_unfold];
            cbn [emit os_exit result world events fst snd]).
    rewrite <- !app_assoc. reflexivity. }
  rewrite Hr. cbn [result world events fst snd].
  split; [reflexivity|]. split; [reflexivity|].
  split; [|split].
  - rewrite existsb_app. cbn [existsb is_serial_read orb].
    rewrite existsb_app, no_read_in_startup_block. reflexivity.
  - unfold serial_writes. rewrite flat_map_app. cbn [flat_map].
    rewrite flat_map_app. fold (serial_writes (startup_block_pro
      (COMMANDS_DELAY cfg) (COMMANDS_STARTUP cfg))).
    rewrite serial_writes_startup_block. cbn. apply app_nil_r.
  - eexists. rewrite !app_assoc. reflexivity.
Qed.

Lemma unopenable_buffer_exits_5_pro_witness :
  result (capture_startup_pro (default_config "/home/u") buffer_unopenable
            (init_world None)) = Exit 5.
Proof.
  destruct (unopenable_buffer_exits_5_pro (default_config "/home/u")
              buffer_unopenable (init_world None) eq_refl eq_refl eq_refl)
    as [H _].
  exact H.
Defined.
